(** * video_converter.py: a shallow embedding and its checked properties

    The development follows [src/video_converter.py] function by function.

    Conventions of the embedding.
    - A Python [str] is a [string] whose characters are the first 256
      Unicode code points (Latin-1); Python's case map and character
      classes are tabulated on that range.
    - A Python [float] is an exact rational ([Q]): the rounding of IEEE-754
      doubles, infinities and NaN are outside the model.  Decimal literals
      of the source ([0.2], [0.9], ...) are read at face value.
    - A Python [int] is a [Z].
    - A raised exception is the [Raise] branch of [res]; a function that
      falls off its end or executes a bare [return] yields Python's [None],
      written [None] in an [option].
    - The external tools (ffprobe, ffmpeg, the file system) answer through
      an [Env] record, one field per call site of [process_video]; the
      commands actually issued are logged in a trace. *)

From Stdlib Require Import ZArith QArith Qround Qminmax String Ascii List Bool Lia Lqa.
From Stdlib Require Import DecimalString.
Import ListNotations.

Local Open Scope string_scope.
Local Open Scope Z_scope.

(* ================================================================== *)
(** * Part I: definitions *)
(* ================================================================== *)

(** ** Exceptions and results *)

Record CompletedProcess := {
  returncode : Z;
  stdout : string;
  stderr : string
}.

(** The exception classes the program can meet.  [OSError] stands for its
    subclasses too ([FileNotFoundError], [PermissionError]); [ValueError]
    for [UnicodeDecodeError] and [JSONDecodeError]. *)
Inductive exn : Type :=
| CalledProcessError (rc : Z) (cmd : list string) (out err : string)
| ZeroDivisionError
| OSError
| ValueError
| TypeError
| IndexError
| KeyError
| AttributeError.

Inductive res (A : Type) : Type :=
| Ok (a : A)
| Raise (e : exn).
Arguments Ok {A} a.
Arguments Raise {A} e.

Definition res_bind {A B} (r : res A) (k : A -> res B) : res B :=
  match r with
  | Ok a => k a
  | Raise e => Raise e
  end.

(** ** Python strings *)

Module Py.

Definition between (lo hi n : N) : bool := ((lo <=? n) && (n <=? hi))%N.

(** Code points with a lowercase mapping below U+0100: A-Z, and
    U+00C0..U+00DE except the multiplication sign U+00D7. *)
Definition has_lower (n : N) : bool :=
  between 65 90 n || (between 192 222 n && negb (n =? 215)%N).

Definition chr_lower (c : ascii) : ascii :=
  let n := N_of_ascii c in
  if has_lower n then ascii_of_N (n + 32) else c.

(** [str.isalnum] on one character: alphabetic, decimal, digit or
    numeric.  Below U+0100 these are 0-9, A-Z, a-z, the ordinal
    indicators U+00AA and U+00BA, the micro sign U+00B5, the superscripts
    U+00B2 U+00B3 U+00B9, the fractions U+00BC..U+00BE and the letters
    U+00C0..U+00FF except U+00D7 and U+00F7. *)
Definition chr_isalnum (c : ascii) : bool :=
  let n := N_of_ascii c in
  between 48 57 n || between 65 90 n || between 97 122 n
  || (n =? 170)%N || (n =? 178)%N || (n =? 179)%N || (n =? 181)%N
  || (n =? 185)%N || (n =? 186)%N || between 188 190 n
  || (between 192 255 n && negb (n =? 215)%N && negb (n =? 247)%N).

Fixpoint str_map (f : ascii -> ascii) (s : string) : string :=
  match s with
  | EmptyString => EmptyString
  | String c r => String (f c) (str_map f r)
  end.

Fixpoint str_filter (p : ascii -> bool) (s : string) : string :=
  match s with
  | EmptyString => EmptyString
  | String c r => if p c then String c (str_filter p r) else str_filter p r
  end.

Fixpoint str_forall (p : ascii -> bool) (s : string) : bool :=
  match s with
  | EmptyString => true
  | String c r => p c && str_forall p r
  end.

(** [c in s] for a one-character [c]. *)
Fixpoint chr_in (c : ascii) (s : string) : bool :=
  match s with
  | EmptyString => false
  | String x r => Ascii.eqb c x || chr_in c r
  end.

Definition lower (s : string) : string := str_map chr_lower s.

(** [s.replace(old, new)] for one-character [old] and [new]. *)
Definition replace (old new : ascii) (s : string) : string :=
  str_map (fun c => if Ascii.eqb c old then new else c) s.

Definition len (s : string) : Z := Z.of_nat (String.length s).

Fixpoint rfind_aux (c : ascii) (s : string) (i acc : Z) : Z :=
  match s with
  | EmptyString => acc
  | String x r => rfind_aux c r (i + 1) (if Ascii.eqb x c then i else acc)
  end.

(** [s.rfind(c)]: the highest index of [c] in [s], or [-1]. *)
Definition rfind (c : ascii) (s : string) : Z := rfind_aux c s 0 (-1).

(** [s.split(sep)] for a one-character separator. *)
Fixpoint split (sep : ascii) (s : string) : list string :=
  match s with
  | EmptyString => [EmptyString]
  | String c r =>
      if Ascii.eqb c sep then EmptyString :: split sep r
      else match split sep r with
           | h :: t => String c h :: t
           | [] => [String c EmptyString]
           end
  end.

Definition startswith (c : ascii) (s : string) : bool :=
  match s with
  | String x _ => Ascii.eqb x c
  | EmptyString => false
  end.

Fixpoint endswith (c : ascii) (s : string) : bool :=
  match s with
  | EmptyString => false
  | String x EmptyString => Ascii.eqb x c
  | String _ r => endswith c r
  end.

(** [str(n)] for an [int]. *)
Definition str_of_int (n : Z) : string := NilZero.string_of_int (Z.to_int n).

(** [sub in s]: substring test. *)
Fixpoint contains (sub s : string) : bool :=
  String.prefix sub s ||
  match s with
  | EmptyString => false
  | String _ r => contains sub r
  end.

Definition dquote : ascii := ascii_of_N 34.

Definition hex_digit (n : N) : ascii :=
  if (n <? 10)%N then ascii_of_N (48 + n) else ascii_of_N (87 + n).

(** Code points that [repr] prints as they are: the printable ones,
    which below U+0100 excludes the controls, U+00A0 and U+00AD. *)
Definition isprintable (n : N) : bool :=
  between 32 126 n || (between 161 255 n && negb (n =? 173)%N).

Definition repr_chr (quote : ascii) (c : ascii) : string :=
  let n := N_of_ascii c in
  if Ascii.eqb c quote || Ascii.eqb c "\" then String "\" (String c EmptyString)
  else if (n =? 9)%N then "\t"
  else if (n =? 10)%N then "\n"
  else if (n =? 13)%N then "\r"
  else if isprintable n then String c EmptyString
  else String "\" (String "x" (String (hex_digit (n / 16)) (String (hex_digit (n mod 16)) EmptyString))).

Fixpoint concat_map (f : ascii -> string) (s : string) : string :=
  match s with
  | EmptyString => EmptyString
  | String c r => f c ++ concat_map f r
  end.

(** [repr(s)] of a [str]: single quotes, unless the text holds a single
    quote and no double quote. *)
Definition repr_str (s : string) : string :=
  let quote : ascii :=
    if chr_in "'" s && negb (chr_in dquote s) then dquote else "'"%char in
  String quote (concat_map (repr_chr quote) s) ++ String quote EmptyString.

(** [repr(l)] of a list of [str]. *)
Definition repr_list (l : list string) : string :=
  "[" ++ String.concat ", " (map repr_str l) ++ "]".

End Py.

(** ** pathlib: pure POSIX paths

    A path is kept as the list of raw segments it was built from, and is
    parsed on demand, as [pathlib.PurePosixPath] does. *)

Module PosixPath.

Definition t := list string.

Definition Path (s : string) : t := [s].

(** The [/] operator: [p / seg]. *)
Definition joinpath (p : t) (seg : string) : t := (p ++ [seg])%list.

(** [posixpath.join]. *)
Definition join_step (path b : string) : string :=
  if Py.startswith "/" b then b
  else if String.eqb path "" || Py.endswith "/" path then path ++ b
  else path ++ "/" ++ b.

Definition join (raw : t) : string :=
  match raw with
  | [] => ""
  | a :: p => fold_left join_step p a
  end.

(** [posixpath.splitroot]: one leading slash, or three and more, give
    the root "/"; exactly two give "//". *)
Definition splitroot (p : string) : string * string :=
  match p with
  | String "/" (String "/" (String "/" r)) => ("/", String "/" (String "/" r))
  | String "/" (String "/" r) => ("//", r)
  | String "/" r => ("/", r)
  | _ => ("", p)
  end.

Definition keep_part (x : string) : bool :=
  negb (String.eqb x "") && negb (String.eqb x ".").

(** Root and parts of a path: empty and "." components are dropped. *)
Definition parse (raw : t) : string * list string :=
  let path := join raw in
  if String.eqb path "" then ("", [])
  else let '(root, rel) := splitroot path in
       (root, filter keep_part (Py.split "/" rel)).

Definition to_str (raw : t) : string :=
  let '(root, tail) := parse raw in
  let s := root ++ String.concat "/" tail in
  if String.eqb s "" then "." else s.

Definition name (raw : t) : string := last (snd (parse raw)) "".

Definition suffix (raw : t) : string :=
  let name := name raw in
  let i := Py.rfind "." name in
  if (0 <? i) && (i <? Py.len name - 1)
  then substring (Z.to_nat i) (String.length name - Z.to_nat i) name
  else "".

Definition stem (raw : t) : string :=
  let name := name raw in
  let i := Py.rfind "." name in
  if (0 <? i) && (i <? Py.len name - 1)
  then substring 0 (Z.to_nat i) name
  else name.

End PosixPath.

(** ** format_filename *)

Definition format_filename (filename : string) : string :=
  let formatted := Py.lower filename in
  let formatted := Py.replace " " "-" formatted in
  let formatted :=
    Py.str_filter (fun c => Py.chr_isalnum c || Py.chr_in c "-_") formatted in
  formatted.

(** The base name [process_video] gives to the outputs of an input file:
    [format_filename(Path(input_file).stem)]. *)
Definition normalize (input_file : string) : string :=
  format_filename (PosixPath.stem (PosixPath.Path input_file)).

Definition get_supported_formats : list string :=
  [".mp4"; ".mov"; ".m4v"; ".avi"; ".mkv"; ".webm"].

(** ** Numbers *)

(** [int(x)] of a float: truncation toward zero. *)
Definition int_of_float (x : Q) : Z := Z.quot (Qnum x) (Zpos (Qden x)).

(** Python's [min(a, b)]: [b] when [b < a], otherwise [a]. *)
Definition py_min (a b : Q) : Q := if Qle_bool a b then a else b.

(** [x / y] on floats. *)
Definition float_div (x y : Q) : res Q :=
  if Qeq_bool y 0 then Raise ZeroDivisionError else Ok (x / y)%Q.

(** ** calculate_target_bitrate *)

Definition base_bitrate : Z := 3000000.

(** The local [target_size_mb] of [calculate_target_bitrate]. *)
Definition target_size_mb (duration_seconds : Q) : Q :=
  py_min 12 (duration_seconds * 0.2)%Q.

(** The local [target_size_bits]. *)
Definition target_size_bits (duration_seconds : Q) : Q :=
  (target_size_mb duration_seconds * 8 * 1024 * 1024)%Q.

Definition calculate_target_bitrate (duration_seconds : Q) : res Z :=
  res_bind (float_div (target_size_bits duration_seconds) duration_seconds)
    (fun q => Ok (Z.min (int_of_float q) base_bitrate)).

(** [int(target_bitrate * factor)], the scaled rates of the WebM passes. *)
Definition scaled (target_bitrate : Z) (factor : Q) : Z :=
  int_of_float (inject_Z target_bitrate * factor)%Q.

(** ** JSON values, as [json.loads] builds them *)

#[warnings="-register-all"]
Inductive json : Type :=
| JNull
| JBool (b : bool)
| JInt (n : Z)
| JFloat (q : Q)
| JStr (s : string)
| JList (l : list json)
| JDict (items : list (string * json)).

Fixpoint dict_lookup (items : list (string * json)) (key : string) : option json :=
  match items with
  | [] => None
  | (k, v) :: rest => if String.eqb k key then Some v else dict_lookup rest key
  end.

(** [obj.get(key, default)]: only a dict has the method. *)
Definition json_get (obj : json) (key : string) (default : json) : res json :=
  match obj with
  | JDict items =>
      Ok (match dict_lookup items key with Some v => v | None => default end)
  | _ => Raise AttributeError
  end.

(** [obj[0]]. *)
Definition json_index0 (obj : json) : res json :=
  match obj with
  | JList (x :: _) => Ok x
  | JList [] => Raise IndexError
  | JStr (String c _) => Ok (JStr (String c EmptyString))
  | JStr EmptyString => Raise IndexError
  | JDict _ => Raise KeyError
  | _ => Raise TypeError
  end.

Record VideoInfo := {
  width : Z;
  height : Z;
  duration : Q
}.

(** The result record of [process_video]: the dict with ['success': True]
    or the dict with ['success': False]. *)
Inductive TranscodeResult : Type :=
| Success (filename : string) (original_size mp4_size webm_size duration : Q)
| Failure (filename : string) (error : string).

Definition result_success (r : TranscodeResult) : bool :=
  match r with
  | Success _ _ _ _ _ => true
  | Failure _ _ => false
  end.

(** ** The outside world of one asset

    One answer per call site of [process_video], in the order the source
    reaches them.  The commands are a function of the arguments and of the
    earlier answers, so any behaviour of the tools on one asset is some
    [Env]. *)

Record Env := {
  mkdir_mp4 : res unit;              (* mp4_output_dir.mkdir(...) *)
  mkdir_webm : res unit;             (* webm_output_dir.mkdir(...) *)
  ffprobe_json : res json;           (* json.loads(check_output(cmd).decode()) *)
  input_size : res N;                (* os.path.getsize(input_file) *)
  mp4_run : res CompletedProcess;    (* subprocess.run(mp4_cmd, ...) *)
  mp4_exists : bool;                 (* mp4_output.exists() *)
  webm_run : res CompletedProcess;   (* subprocess.run(webm_cmd, ...) *)
  mp4_getsize : res N;               (* os.path.getsize(mp4_output) *)
  webm_getsize : res N;              (* os.path.getsize(webm_output) *)
  webm_rerun : res CompletedProcess; (* subprocess.run(webm_cmd, check=True, ...) *)
  webm_regetsize : res N             (* os.path.getsize(webm_output), after the retry *)
}.

Inductive tool : Type := Ffprobe | Mp4Encoder | WebmEncoder.

(** One subprocess started by the program. *)
Inductive event : Type := Run (t : tool) (cmd : list string).

Definition is_encode (ev : event) : bool :=
  match ev with
  | Run Mp4Encoder _ | Run WebmEncoder _ => true
  | Run Ffprobe _ => false
  end.

Definition is_webm_encode (ev : event) : bool :=
  match ev with
  | Run WebmEncoder _ => true
  | _ => false
  end.

Definition encode_count (tr : list event) : nat := length (filter is_encode tr).
Definition webm_encode_count (tr : list event) : nat := length (filter is_webm_encode tr).

(** ** A small monad: an outcome and the subprocesses started so far *)

Definition M (A : Type) : Type := (res A * list event)%type.

Definition ret {A} (a : A) : M A := (Ok a, []).
Definition raise {A} (e : exn) : M A := (Raise e, []).
Definition lift {A} (r : res A) : M A := (r, []).

Definition bind {A B} (m : M A) (k : A -> M B) : M B :=
  match m with
  | (Ok a, t1) => let '(r, t2) := k a in (r, (t1 ++ t2)%list)
  | (Raise e, t1) => (Raise e, t1)
  end.

Notation "x <- m ;; k" := (bind m (fun x => k))
  (at level 61, m at next level, right associativity).
Notation "m ;;; k" := (bind m (fun _ => k))
  (at level 61, right associativity).

(** Start a subprocess: log it, then take the world's answer. *)
Definition subprocess {A} (t : tool) (cmd : list string) (answer : res A) : M A :=
  (answer, [Run t cmd]).

(** [try: body except subprocess.CalledProcessError as e: handler]. *)
Definition try_except_CalledProcessError {A}
    (body : M A) (handler : Z -> list string -> string -> string -> M A) : M A :=
  match body with
  | (Raise (CalledProcessError rc cmd out err), t1) =>
      let '(r, t2) := handler rc cmd out err in (r, (t1 ++ t2)%list)
  | other => other
  end.

(** [try: body except: return None], the bare handler of [get_video_info]. *)
Definition try_except_all {A} (body : M A) : M (option A) :=
  match body with
  | (Ok a, t) => (Ok (Some a), t)
  | (Raise _, t) => (Ok None, t)
  end.

Definition outcome {A} (m : M A) : res A := fst m.
Definition trace {A} (m : M A) : list event := snd m.

(** A size in bytes as megabytes: [size / (1024 * 1024)]. *)
Definition size_mb (size : N) : Q :=
  (inject_Z (Z.of_N size) / inject_Z (1024 * 1024))%Q.

(** [get_video_size_mb]: [os.path.getsize(file_path) / (1024 * 1024)]. *)
Definition get_video_size_mb (getsize : res N) : M Q :=
  size <- lift getsize ;;
  ret (size_mb size).

(** ** A sample host and sample worlds, for the concrete checks *)

Definition sample_cpu_count : Z := 8.

(** Two entries of the POSIX signal table. *)
Definition sample_signal_name (n : Z) : option string :=
  if n =? 9 then Some "SIGKILL"
  else if n =? 15 then Some "SIGTERM"
  else None.

Fixpoint digits_value (s : string) (acc : Z) : option Z :=
  match s with
  | EmptyString => Some acc
  | String c r =>
      let n := N_of_ascii c in
      if Py.between 48 57 n then digits_value r (acc * 10 + Z.of_N n - 48)
      else None
  end.

(** [int(s)] on the unsigned decimal numerals; other texts are refused
    here, which is enough for the samples below. *)
Definition sample_int_of_str (s : string) : res Z :=
  match s with
  | EmptyString => Raise ValueError
  | _ => match digits_value s 0 with
         | Some n => Ok n
         | None => Raise ValueError
         end
  end.

(** [float(s)] on the plain decimals ffprobe prints, such as
    "10.000000"; other texts are refused here. *)
Definition sample_float_of_str (s : string) : res Q :=
  match Py.split "." s with
  | [a; b] =>
      match sample_int_of_str a, sample_int_of_str b with
      | Ok x, Ok y =>
          Ok (inject_Z x + inject_Z y / inject_Z (10 ^ Py.len b))%Q
      | _, _ => Raise ValueError
      end
  | [a] =>
      match sample_int_of_str a with
      | Ok x => Ok (inject_Z x)
      | Raise e => Raise e
      end
  | _ => Raise ValueError
  end.

Definition completed (rc : Z) (err : string) : CompletedProcess :=
  {| returncode := rc; stdout := ""; stderr := err |}.

(** What ffprobe prints for a ten-second 1920x1080 clip. *)
Definition probe_ten_seconds : json :=
  JDict [("programs", JList []);
         ("streams", JList [JDict [("width", JInt 1920);
                                   ("height", JInt 1080);
                                   ("duration", JStr "10.000000")]])].

(** A stream entry without a duration, as ffprobe prints for containers
    that keep the duration at the format level. *)
Definition probe_no_duration : json :=
  JDict [("programs", JList []);
         ("streams", JList [JDict [("width", JInt 1920);
                                   ("height", JInt 1080)]])].

(** A 50 MB input, a 2 MB MP4; the WebM sizes (first pass, retry) and the
    answers of the probe and of the three encoder passes are given. *)
Definition sample_env (probe : res json) (mp4 webm rerun : res CompletedProcess)
    (webm_bytes rewebm_bytes : N) : Env :=
  {| mkdir_mp4 := Ok tt;
     mkdir_webm := Ok tt;
     ffprobe_json := probe;
     input_size := Ok 52428800%N;
     mp4_run := mp4;
     mp4_exists := true;
     webm_run := webm;
     mp4_getsize := Ok 2097152%N;
     webm_getsize := Ok webm_bytes;
     webm_rerun := rerun;
     webm_regetsize := Ok rewebm_bytes |}.

(** Every tool succeeds and the WebM (1.5 MB) is smaller than the MP4. *)
Definition env_ok : Env :=
  sample_env (Ok probe_ten_seconds) (Ok (completed 0 "")) (Ok (completed 0 ""))
    (Ok (completed 0 "")) 1572864 1572864.

(** The first WebM (3 MB) is larger than the MP4, and so is the second. *)
Definition env_webm_larger : Env :=
  sample_env (Ok probe_ten_seconds) (Ok (completed 0 "")) (Ok (completed 0 ""))
    (Ok (completed 0 "")) 3145728 2621440.

(** ffprobe exits with status 1. *)
Definition env_probe_fails : Env :=
  sample_env (Raise (CalledProcessError 1 ["ffprobe"] "" ""))
    (Ok (completed 0 "")) (Ok (completed 0 "")) (Ok (completed 0 ""))
    1572864 1572864.

Definition env_no_duration : Env :=
  sample_env (Ok probe_no_duration) (Ok (completed 0 "")) (Ok (completed 0 ""))
    (Ok (completed 0 "")) 1572864 1572864.

(** The MP4 pass exits with status 1 and a diagnostic on stderr. *)
Definition env_mp4_fails : Env :=
  sample_env (Ok probe_ten_seconds) (Ok (completed 1 "Unknown encoder libx264"))
    (Ok (completed 0 "")) (Ok (completed 0 "")) 1572864 1572864.

(** The ffmpeg executable is missing: [subprocess.run] raises
    [FileNotFoundError]. *)
Definition env_no_ffmpeg : Env :=
  sample_env (Ok probe_ten_seconds) (Raise OSError)
    (Ok (completed 0 "")) (Ok (completed 0 "")) 1572864 1572864.

(** The metadata of [probe_ten_seconds]. *)
Definition info_ten_seconds : VideoInfo :=
  {| width := 1920;
     height := 1080;
     duration := (inject_Z 10 + inject_Z 0 / inject_Z (10 ^ 6))%Q |}.

(** ffprobe prints an object without a "streams" key. *)
Definition env_no_streams : Env :=
  sample_env (Ok (JDict [("programs", JList [])])) (Ok (completed 0 ""))
    (Ok (completed 0 "")) (Ok (completed 0 "")) 1572864 1572864.

(** As [env_ok], with an input file of 0 bytes. *)
Definition env_empty_input : Env :=
  {| mkdir_mp4 := Ok tt;
     mkdir_webm := Ok tt;
     ffprobe_json := Ok probe_ten_seconds;
     input_size := Ok 0%N;
     mp4_run := Ok (completed 0 "");
     mp4_exists := true;
     webm_run := Ok (completed 0 "");
     mp4_getsize := Ok 2097152%N;
     webm_getsize := Ok 1572864%N;
     webm_rerun := Ok (completed 0 "");
     webm_regetsize := Ok 1572864%N |}.


Definition sample_world (f : string) : Env :=
  if String.eqb f "in/broken.mp4" then env_probe_fails else env_ok.

(** ** The pipeline, over the host's runtime *)

Section Pipeline.

(** [multiprocessing.cpu_count()]. *)
Variable cpu_count : Z.
(** The platform's signal table: the name [signal.Signals(n)] has, if any. *)
Variable signal_name : Z -> option string.
(** [int(s)] and [float(s)] on a [str]; [Raise] is the [ValueError]. *)
Variable int_of_str : string -> res Z.
Variable float_of_str : string -> res Q.

(** [int(v)] on a JSON value. *)
Definition py_int (v : json) : res Z :=
  match v with
  | JInt n => Ok n
  | JBool b => Ok (if b then 1 else 0)
  | JFloat q => Ok (int_of_float q)
  | JStr s => int_of_str s
  | JNull | JList _ | JDict _ => Raise TypeError
  end.

(** [float(v)] on a JSON value. *)
Definition py_float (v : json) : res Q :=
  match v with
  | JInt n => Ok (inject_Z n)
  | JBool b => Ok (if b then 1 else 0)%Q
  | JFloat q => Ok q
  | JStr s => float_of_str s
  | JNull | JList _ | JDict _ => Raise TypeError
  end.

(** [str(e)] of a [CalledProcessError]: the command and the exit status
    (or the signal), nothing of the captured output. *)
Definition CalledProcessError_str (rc : Z) (cmd : list string) : string :=
  if rc <? 0 then
    match signal_name (- rc) with
    | Some name =>
        "Command '" ++ Py.repr_list cmd ++ "' died with <Signals." ++ name
        ++ ": " ++ Py.str_of_int (- rc) ++ ">."
    | None =>
        "Command '" ++ Py.repr_list cmd ++ "' died with unknown signal "
        ++ Py.str_of_int (- rc) ++ "."
    end
  else
    "Command '" ++ Py.repr_list cmd ++ "' returned non-zero exit status "
    ++ Py.str_of_int rc ++ ".".

Definition ffprobe_cmd (input_file : string) : list string :=
  ["ffprobe"; "-v"; "error"; "-select_streams"; "v:0";
   "-show_entries"; "stream=width,height,duration"; "-of"; "json";
   input_file].

(** The body of the [try] of [get_video_info]. *)
Definition get_video_info_body (env : Env) (input_file : string) : M VideoInfo :=
  info <- subprocess Ffprobe (ffprobe_cmd input_file) (ffprobe_json env) ;;
  streams <- lift (json_get info "streams" (JList [JDict []])) ;;
  stream_info <- lift (json_index0 streams) ;;
  w <- lift (res_bind (json_get stream_info "width" (JInt 0)) py_int) ;;
  h <- lift (res_bind (json_get stream_info "height" (JInt 0)) py_int) ;;
  d <- lift (res_bind (json_get stream_info "duration" (JInt 0)) py_float) ;;
  ret {| width := w; height := h; duration := d |}.

Definition get_video_info (env : Env) (input_file : string) : M (option VideoInfo) :=
  try_except_all (get_video_info_body env input_file).

Definition scale_filter : string :=
  "scale=1080:1920:force_original_aspect_ratio=increase,crop=1080:1920".

Definition mp4_cmd (input_file : string) (ffmpeg_threads target_bitrate : Z)
    (mp4_output : string) : list string :=
  ["ffmpeg"; "-y";
   "-i"; input_file;
   "-threads"; Py.str_of_int ffmpeg_threads;
   "-vf"; scale_filter ++ ",format=yuv420p";
   "-c:v"; "libx264";
   "-crf"; "20";
   "-preset"; "medium";
   "-profile:v"; "main";
   "-level"; "4.0";
   "-maxrate"; Py.str_of_int target_bitrate;
   "-bufsize"; Py.str_of_int (target_bitrate * 2);
   "-movflags"; "+faststart";
   "-color_primaries"; "bt709";
   "-color_trc"; "bt709";
   "-colorspace"; "bt709";
   "-c:a"; "aac";
   "-b:a"; "128k";
   "-ar"; "48000";
   mp4_output].

(** The two WebM command lines differ in their three rates only. *)
Definition webm_cmd_with (mp4_output : string) (ffmpeg_threads : Z)
    (bv minrate maxrate : Z) (webm_output : string) : list string :=
  ["ffmpeg"; "-y";
   "-i"; mp4_output;
   "-threads"; Py.str_of_int ffmpeg_threads;
   "-c:v"; "libvpx-vp9";
   "-b:v"; Py.str_of_int bv;
   "-minrate"; Py.str_of_int minrate;
   "-maxrate"; Py.str_of_int maxrate;
   "-tile-columns"; "2";
   "-frame-parallel"; "1";
   "-speed"; "1";
   "-auto-alt-ref"; "1";
   "-lag-in-frames"; "25";
   "-g"; "240";
   "-pix_fmt"; "yuv420p";
   "-c:a"; "libopus";
   "-b:a"; "96k";
   webm_output].

Definition webm_cmd (mp4_output : string) (ffmpeg_threads target_bitrate : Z)
    (webm_output : string) : list string :=
  webm_cmd_with mp4_output ffmpeg_threads
    (scaled target_bitrate 0.9) (scaled target_bitrate 0.6) target_bitrate
    webm_output.

Definition webm_retry_cmd (mp4_output : string) (ffmpeg_threads target_bitrate : Z)
    (webm_output : string) : list string :=
  webm_cmd_with mp4_output ffmpeg_threads
    (scaled target_bitrate 0.7) (scaled target_bitrate 0.4)
    (scaled target_bitrate 0.8)
    webm_output.

(** [if result.returncode != 0: raise CalledProcessError(...)], which is
    also what [check=True] does. *)
Definition check_returncode (cmd : list string) (result : CompletedProcess) : M unit :=
  if returncode result =? 0 then ret tt
  else raise (CalledProcessError (returncode result) cmd (stdout result) (stderr result)).

Definition mp4_output_of (input_file output_dir : string) : string :=
  PosixPath.to_str
    (PosixPath.joinpath (PosixPath.joinpath (PosixPath.Path output_dir) "mp4")
       (normalize input_file ++ ".mp4")).

Definition webm_output_of (input_file output_dir : string) : string :=
  PosixPath.to_str
    (PosixPath.joinpath (PosixPath.joinpath (PosixPath.Path output_dir) "webm")
       (normalize input_file ++ ".webm")).

Definition ffmpeg_threads : Z := Z.max 1 (cpu_count / 2).

(** The body of the [try] of [process_video]. *)
Definition encode (env : Env) (input_file output_dir filename : string)
    (file_size_mb duration : Q) (target_bitrate : Z) : M (option TranscodeResult) :=
  let mp4_output := mp4_output_of input_file output_dir in
  let webm_output := webm_output_of input_file output_dir in
  let cmd := mp4_cmd input_file ffmpeg_threads target_bitrate mp4_output in
  result <- subprocess Mp4Encoder cmd (mp4_run env) ;;
  check_returncode cmd result ;;;
  if mp4_exists env then
    let cmd := webm_cmd mp4_output ffmpeg_threads target_bitrate webm_output in
    result <- subprocess WebmEncoder cmd (webm_run env) ;;
    check_returncode cmd result ;;;
    mp4_size <- get_video_size_mb (mp4_getsize env) ;;
    webm_size <- get_video_size_mb (webm_getsize env) ;;
    (* the report prints mp4_size/file_size_mb and webm_size/file_size_mb *)
    lift (float_div mp4_size file_size_mb) ;;;
    lift (float_div webm_size file_size_mb) ;;;
    webm_size <-
      (if Qle_bool webm_size mp4_size then ret webm_size
       else
         let cmd := webm_retry_cmd mp4_output ffmpeg_threads target_bitrate webm_output in
         result <- subprocess WebmEncoder cmd (webm_rerun env) ;;
         check_returncode cmd result ;;;
         webm_size <- get_video_size_mb (webm_regetsize env) ;;
         lift (float_div webm_size file_size_mb) ;;;
         ret webm_size) ;;
    ret (Some (Success filename file_size_mb mp4_size webm_size duration))
  else ret None.

(** The [except] clause of [process_video]: the record holds [str(e)]. *)
Definition failure_handler (filename : string)
    (rc : Z) (cmd : list string) (out err : string) : M (option TranscodeResult) :=
  ret (Some (Failure filename (CalledProcessError_str rc cmd))).

Definition process_video (args : string * string) (env : Env)
    : M (option TranscodeResult) :=
  let '(input_file, output_dir) := args in
  let filename := normalize input_file in
  lift (mkdir_mp4 env) ;;;
  lift (mkdir_webm env) ;;;
  video_info <- get_video_info env input_file ;;
  match video_info with
  | None => ret None
  | Some video_info =>
      file_size_mb <- get_video_size_mb (input_size env) ;;
      let duration := duration video_info in
      target_bitrate <- lift (calculate_target_bitrate duration) ;;
      try_except_CalledProcessError
        (encode env input_file output_dir filename file_size_mb duration target_bitrate)
        (failure_handler filename)
  end.

(** *** batch_process_videos *)

(** What the closing summary prints. *)
Record BatchReport := {
  results : list (option TranscodeResult);
  successful : list TranscodeResult;
  failed : list TranscodeResult;
  unsupported_files : list string;
  max_workers : Z;
  totals : option (Q * Q * Q)
}.

(** [list(executor.map(f, l))]: the results in the order of [l]; the
    first call that raised has its exception raised again here. *)
Fixpoint executor_map {A B} (f : A -> res B) (l : list A) : res (list B) :=
  match l with
  | [] => Ok []
  | a :: rest =>
      res_bind (f a) (fun b =>
      res_bind (executor_map f rest) (fun bs => Ok (b :: bs)))
  end.

(** [f.suffix.lower() in supported_formats]. *)
Definition is_supported (f : string) : bool :=
  existsb (String.eqb (Py.lower (PosixPath.suffix (PosixPath.Path f))))
    get_supported_formats.

(** [[r for r in results if r and r.get('success', False)]]. *)
Fixpoint select_successful (results : list (option TranscodeResult)) : list TranscodeResult :=
  match results with
  | [] => []
  | Some r :: rest =>
      if result_success r then r :: select_successful rest
      else select_successful rest
  | None :: rest => select_successful rest
  end.

(** [[r for r in results if r and not r.get('success', False)]]. *)
Fixpoint select_failed (results : list (option TranscodeResult)) : list TranscodeResult :=
  match results with
  | [] => []
  | Some r :: rest =>
      if result_success r then select_failed rest
      else r :: select_failed rest
  | None :: rest => select_failed rest
  end.

Definition sum_of (field : TranscodeResult -> Q) (l : list TranscodeResult) : Q :=
  fold_right (fun r acc => (field r + acc)%Q) 0%Q l.

Definition original_size_of (r : TranscodeResult) : Q :=
  match r with Success _ o _ _ _ => o | Failure _ _ => 0%Q end.
Definition mp4_size_of (r : TranscodeResult) : Q :=
  match r with Success _ _ m _ _ => m | Failure _ _ => 0%Q end.
Definition webm_size_of (r : TranscodeResult) : Q :=
  match r with Success _ _ _ w _ => w | Failure _ _ => 0%Q end.

(** [world] gives each input file its answers.  The result is [None]
    when the function stops at "no supported file". *)
Definition batch_process_videos (world : string -> Env)
    (all_files : list string) (output_dir : string) : res (option BatchReport) :=
  let video_files := filter is_supported all_files in
  let unsupported :=
    filter (fun f => negb (existsb (String.eqb f) video_files)) all_files in
  match video_files with
  | [] => Ok None
  | _ =>
      let max_workers := Z.max 1 (cpu_count - 1) in
      let process_args := map (fun video_file => (video_file, output_dir)) video_files in
      res_bind
        (executor_map
           (fun args => outcome (process_video args (world (fst args))))
           process_args)
        (fun results =>
           let successful := select_successful results in
           let failed := select_failed results in
           res_bind
             (match successful with
              | [] => Ok None
              | _ =>
                  let total_original := sum_of original_size_of successful in
                  let total_mp4 := sum_of mp4_size_of successful in
                  let total_webm := sum_of webm_size_of successful in
                  res_bind (float_div total_mp4 total_original) (fun _ =>
                  res_bind (float_div total_webm total_original) (fun _ =>
                  Ok (Some (total_original, total_mp4, total_webm))))
              end)
             (fun totals =>
                Ok (Some {| results := results;
                            successful := successful;
                            failed := failed;
                            unsupported_files := unsupported;
                            max_workers := max_workers;
                            totals := totals |})))
  end.

(** *** Stages of one run, as conditions on the world *)

(** The run gets as far as the [try] block: both directories made, the
    probe answered [info], the input file has [n] bytes and the planner
    gave [b]. *)
Definition reaches_encode (env : Env) (input_file : string)
    (info : VideoInfo) (n : N) (b : Z) : Prop :=
  mkdir_mp4 env = Ok tt /\
  mkdir_webm env = Ok tt /\
  outcome (get_video_info env input_file) = Ok (Some info) /\
  input_size env = Ok n /\
  calculate_target_bitrate (duration info) = Ok b.

(** The run gets as far as the size comparison [webm_size > mp4_size]:
    both first passes exited with status 0, the MP4 exists, the outputs
    measure [m] and [w] bytes, and the two ratios to the (non-zero)
    input size were printed. *)
Definition reaches_comparison (env : Env) (input_file : string)
    (info : VideoInfo) (n : N) (b : Z) (m w : N) : Prop :=
  reaches_encode env input_file info n b /\
  n <> 0%N /\
  (exists r, mp4_run env = Ok r /\ returncode r = 0) /\
  mp4_exists env = true /\
  (exists r, webm_run env = Ok r /\ returncode r = 0) /\
  mp4_getsize env = Ok m /\
  webm_getsize env = Ok w.

(** One character through [lower] then [replace(' ', '-')]. *)
Definition name_step (c : ascii) : ascii :=
  let l := Py.chr_lower c in if Ascii.eqb l " " then "-"%char else l.

Definition name_keep (c : ascii) : bool :=
  Py.chr_isalnum c || Py.chr_in c "-_".

(** The characters [format_filename] leaves alone. *)
Definition normal_chr (c : ascii) : bool :=
  name_keep c && Ascii.eqb (name_step c) c
  && negb (Ascii.eqb c "/") && negb (Ascii.eqb c ".").

Definition count_none (results : list (option TranscodeResult)) : nat :=
  length (filter (fun r => match r with None => true | Some _ => false end) results).

(** One step of a run: reduce the monad's operations, nothing else. *)
Ltac run_step :=
  cbn [bind ret lift raise subprocess try_except_all
       try_except_CalledProcessError outcome trace fst snd app res_bind].


(** The subprocesses of a complete run with a retry, in the order of the
    source: ffprobe, the MP4 pass, the WebM pass, the WebM retry. *)
Definition full_trace (input_file output_dir : string) (target_bitrate : Z)
    : list event :=
  let mp4_output := mp4_output_of input_file output_dir in
  let webm_output := webm_output_of input_file output_dir in
  [Run Ffprobe (ffprobe_cmd input_file);
   Run Mp4Encoder (mp4_cmd input_file ffmpeg_threads target_bitrate mp4_output);
   Run WebmEncoder (webm_cmd mp4_output ffmpeg_threads target_bitrate webm_output);
   Run WebmEncoder (webm_retry_cmd mp4_output ffmpeg_threads target_bitrate webm_output)].

(** A path segment made of one component: not empty, not ".", no slash. *)
Definition no_slash (s : string) : bool :=
  Py.str_forall (fun c => negb (Ascii.eqb c "/")) s.

Definition one_component (s : string) : bool :=
  PosixPath.keep_part s && no_slash s.

(** The directory part in front of every output of one output directory:
    the root and the components of [Path(output_dir)], each followed by a
    slash. *)
Definition output_prefix (output_dir : string) : string :=
  let '(root, parts) := PosixPath.parse (PosixPath.Path output_dir) in
  root ++ String.concat "" (map (fun part => part ++ "/") parts).

(* ================================================================ *)
(** * Part II: properties *)
(* ================================================================ *)

(** ** Strings and names *)

Lemma format_filename_unfold (x : string) :
  format_filename x = Py.str_filter name_keep (Py.str_map name_step x).
Proof.
  unfold format_filename, Py.replace, Py.lower.
  induction x as [|c r IH]; cbn [Py.str_map Py.str_filter]; [reflexivity|].
  rewrite IH. reflexivity.
Qed.

(** A kept character is already in normal form: 256 cases. *)
Lemma name_step_fixed (c : ascii) :
  name_keep (name_step c) = true -> name_step (name_step c) = name_step c.
Proof.
  destruct c as [[] [] [] [] [] [] [] []]; vm_compute; intro H;
    first [reflexivity | discriminate H].
Qed.

Lemma name_keep_not_sep (c : ascii) :
  name_keep (name_step c) = true ->
  Ascii.eqb (name_step c) "/" = false /\ Ascii.eqb (name_step c) "." = false.
Proof.
  destruct c as [[] [] [] [] [] [] [] []]; vm_compute; intro H;
    first [split; reflexivity | discriminate H].
Qed.

Lemma format_filename_normal (x : string) :
  Py.str_forall normal_chr (format_filename x) = true.
Proof.
  rewrite format_filename_unfold.
  induction x as [|c r IH]; simpl; [reflexivity|].
  destruct (name_keep (name_step c)) eqn:K; [|exact IH].
  simpl. rewrite IH, andb_true_r.
  unfold normal_chr. rewrite K, (name_step_fixed _ K), Ascii.eqb_refl.
  destruct (name_keep_not_sep _ K) as [-> ->]. reflexivity.
Qed.

Lemma format_filename_fixed (s : string) :
  Py.str_forall normal_chr s = true -> format_filename s = s.
Proof.
  rewrite format_filename_unfold.
  induction s as [|c r IH]; simpl; [reflexivity|].
  intro H. apply andb_true_iff in H as [Hc Hr].
  unfold normal_chr in Hc.
  repeat (apply andb_true_iff in Hc as [Hc ?]).
  match goal with E : Ascii.eqb (name_step c) c = true |- _ =>
    apply Ascii.eqb_eq in E; rewrite E end.
  rewrite Hc, (IH Hr). reflexivity.
Qed.

Lemma split_no_sep (sep : ascii) (s : string) :
  Py.str_forall (fun c => negb (Ascii.eqb c sep)) s = true ->
  Py.split sep s = [s].
Proof.
  induction s as [|c r IH]; simpl; [reflexivity|].
  intro H. apply andb_true_iff in H as [Hc Hr].
  apply negb_true_iff in Hc. rewrite Hc, (IH Hr). reflexivity.
Qed.

Lemma rfind_aux_absent (c : ascii) (s : string) (i acc : Z) :
  Py.str_forall (fun x => negb (Ascii.eqb x c)) s = true ->
  Py.rfind_aux c s i acc = acc.
Proof.
  revert i acc. induction s as [|x r IH]; simpl; intros i acc H; [reflexivity|].
  apply andb_true_iff in H as [Hx Hr].
  apply negb_true_iff in Hx. rewrite Hx. apply IH, Hr.
Qed.

Lemma str_forall_weaken (p q : ascii -> bool) (s : string) :
  (forall c, p c = true -> q c = true) ->
  Py.str_forall p s = true -> Py.str_forall q s = true.
Proof.
  intro Hpq. induction s as [|c r IH]; simpl; [reflexivity|].
  intro H. apply andb_true_iff in H as [Hc Hr].
  rewrite (Hpq _ Hc), (IH Hr). reflexivity.
Qed.

(** A normal string is a bare file name without extension. *)
Lemma stem_normal (s : string) :
  Py.str_forall normal_chr s = true ->
  PosixPath.stem (PosixPath.Path s) = s.
Proof.
  intro H.
  assert (Hslash : Py.str_forall (fun c => negb (Ascii.eqb c "/")) s = true).
  { apply (str_forall_weaken normal_chr); [|exact H].
    intros c Hc. unfold normal_chr in Hc.
    repeat (apply andb_true_iff in Hc as [Hc ?]). assumption. }
  assert (Hdot : Py.str_forall (fun c => negb (Ascii.eqb c ".")) s = true).
  { apply (str_forall_weaken normal_chr); [|exact H].
    intros c Hc. unfold normal_chr in Hc.
    repeat (apply andb_true_iff in Hc as [Hc ?]). assumption. }
  assert (Hname : PosixPath.name (PosixPath.Path s) = s).
  { unfold PosixPath.name, PosixPath.parse, PosixPath.Path, PosixPath.join.
    simpl fold_left.
    destruct s as [|c r]; [reflexivity|].
    assert (Hc : Ascii.eqb c "/" = false).
    { simpl in Hslash. apply andb_true_iff in Hslash as [Hc _].
      now apply negb_true_iff in Hc. }
    assert (Hd : Ascii.eqb c "." = false).
    { simpl in Hdot. apply andb_true_iff in Hdot as [Hd _].
      now apply negb_true_iff in Hd. }
    assert (Hroot : PosixPath.splitroot (String c r) = ("", String c r)).
    { unfold PosixPath.splitroot.
      destruct c as [[] [] [] [] [] [] [] []]; try reflexivity; discriminate Hc. }
    change (String.eqb (String c r) "") with false. cbv iota.
    rewrite Hroot, (split_no_sep _ _ Hslash).
    assert (Hk : PosixPath.keep_part (String c r) = true).
    { unfold PosixPath.keep_part. simpl.
      rewrite Hd. reflexivity. }
    simpl. rewrite Hk. reflexivity. }
  unfold PosixPath.stem. rewrite Hname.
  unfold Py.rfind. rewrite (rfind_aux_absent _ _ _ _ Hdot). reflexivity.
Qed.

(** C7.  Name normalisation is idempotent, both as [format_filename]
    alone and as the pipeline applies it (on the stem of the input path);
    and the input file "My Clip 01.MOV" is given the base name
    "my-clip-01". *)
Theorem normalize_idempotent :
  (forall x, format_filename (format_filename x) = format_filename x) /\
  (forall x, normalize (normalize x) = normalize x) /\
  normalize "My Clip 01.MOV" = "my-clip-01".
Proof.
  split; [|split].
  - intro x. apply format_filename_fixed, format_filename_normal.
  - intro x. unfold normalize at 1.
    rewrite (stem_normal (normalize x)) by apply format_filename_normal.
    apply format_filename_fixed, format_filename_normal.
  - reflexivity.
Qed.

(** ** The bitrate planner *)


Lemma float_div_ok (x y : Q) : ~ (y == 0)%Q -> float_div x y = Ok (x / y)%Q.
Proof.
  intro H. unfold float_div.
  destruct (Qeq_bool y 0) eqn:E; [|reflexivity].
  apply Qeq_bool_eq in E. contradiction.
Qed.











Lemma Ok_inj {A} (a b : A) : Ok a = Ok b -> a = b.
Proof. intro H. congruence. Qed.





(** ** The probe adapter *)

Lemma get_video_info_shape (env : Env) (f : string) :
  exists r, get_video_info env f = (Ok r, [Run Ffprobe (ffprobe_cmd f)]).
Proof.
  unfold get_video_info, get_video_info_body.
  destruct (ffprobe_json env) as [info|e]; run_step; [|eexists; reflexivity].
  destruct (json_get info "streams" (JList [JDict []])) as [streams|e];
    run_step; [|eexists; reflexivity].
  destruct (json_index0 streams) as [stream_info|e];
    run_step; [|eexists; reflexivity].
  destruct (json_get stream_info "width" (JInt 0)) as [w|e];
    run_step; [|eexists; reflexivity].
  destruct (py_int w) as [w'|e]; run_step; [|eexists; reflexivity].
  destruct (json_get stream_info "height" (JInt 0)) as [h|e];
    run_step; [|eexists; reflexivity].
  destruct (py_int h) as [h'|e]; run_step; [|eexists; reflexivity].
  destruct (json_get stream_info "duration" (JInt 0)) as [d|e];
    run_step; [|eexists; reflexivity].
  destruct (py_float d) as [d'|e]; run_step; eexists; reflexivity.
Qed.

Lemma get_video_info_failure (env : Env) (f : string) (e : exn) :
  outcome (get_video_info_body env f) = Raise e ->
  outcome (get_video_info env f) = Ok None.
Proof.
  unfold get_video_info, try_except_all.
  destruct (get_video_info_body env f) as [[v|e'] t]; simpl; [discriminate|reflexivity].
Qed.

(** C9.  The probe adapter never raises: it always returns a value;
    whatever is raised inside it (the tool missing or exiting with an
    error, output that does not decode or parse, a value that does not
    convert) makes it return None; and when the output parses to an
    object whose first stream entry is an object, every field the entry
    lacks is 0 in the metadata that is returned (the fields it has must
    convert). *)
Theorem get_video_info_never_raises (env : Env) (f : string) :
  (exists r, outcome (get_video_info env f) = Ok r) /\
  (forall e, outcome (get_video_info_body env f) = Raise e ->
     outcome (get_video_info env f) = Ok None) /\
  (forall e, ffprobe_json env = Raise e ->
     outcome (get_video_info env f) = Ok None) /\
  (forall top items,
     ffprobe_json env = Ok (JDict top) ->
     json_index0 (match dict_lookup top "streams" with
                  | Some v => v
                  | None => JList [JDict []]
                  end) = Ok (JDict items) ->
     (forall v, dict_lookup items "width" = Some v -> exists n, py_int v = Ok n) ->
     (forall v, dict_lookup items "height" = Some v -> exists n, py_int v = Ok n) ->
     (forall v, dict_lookup items "duration" = Some v -> exists q, py_float v = Ok q) ->
     exists info,
       outcome (get_video_info env f) = Ok (Some info) /\
       (dict_lookup items "width" = None -> width info = 0) /\
       (dict_lookup items "height" = None -> height info = 0) /\
       (dict_lookup items "duration" = None -> duration info = 0%Q)).
Proof.
  split; [|split; [|split]].
  - destruct (get_video_info_shape env f) as [r E]. exists r. now rewrite E.
  - apply get_video_info_failure.
  - intros e E. apply (get_video_info_failure env f e).
    unfold get_video_info_body. rewrite E. reflexivity.
  - intros top items Etop Estream Hw Hh Hd.
    unfold get_video_info, get_video_info_body.
    rewrite Etop. unfold json_get at 1. run_step.
    rewrite Estream. run_step.
    unfold json_get.
    destruct (dict_lookup items "width") as [vw|] eqn:Ew;
      destruct (dict_lookup items "height") as [vh|] eqn:Eh;
      destruct (dict_lookup items "duration") as [vd|] eqn:Ed;
      run_step;
      try (destruct (Hw _ eq_refl) as [w Ew']; rewrite Ew'; run_step);
      try (destruct (Hh _ eq_refl) as [h Eh']; rewrite Eh'; run_step);
      try (destruct (Hd _ eq_refl) as [d Ed']; rewrite Ed'; run_step);
      (eexists; split; [reflexivity|];
       repeat split; intros; try discriminate; reflexivity).
Qed.

(** ** The per-asset pipeline *)

Lemma get_video_info_outcome (env : Env) (f : string) (r : option VideoInfo) :
  outcome (get_video_info env f) = Ok r ->
  get_video_info env f = (Ok r, [Run Ffprobe (ffprobe_cmd f)]).
Proof.
  destruct (get_video_info_shape env f) as [r' E]. rewrite E. simpl.
  intro H. apply Ok_inj in H. now subst.
Qed.



(** Up to the [try] block. *)
Lemma process_video_encode (env : Env) (f o : string)
    (info : VideoInfo) (n : N) (b : Z) :
  reaches_encode env f info n b ->
  process_video (f, o) env =
  (outcome (try_except_CalledProcessError
              (encode env f o (normalize f) (size_mb n) (duration info) b)
              (failure_handler (normalize f))),
   Run Ffprobe (ffprobe_cmd f) ::
   trace (try_except_CalledProcessError
            (encode env f o (normalize f) (size_mb n) (duration info) b)
            (failure_handler (normalize f)))).
Proof.
  intros (H1 & H2 & H3 & H4 & H5). unfold process_video.
  rewrite H1, H2, (get_video_info_outcome _ _ _ H3). run_step.
  unfold get_video_size_mb. rewrite H4. run_step. rewrite H5. run_step.
  destruct (try_except_CalledProcessError _ _) as [r t]. reflexivity.
Qed.

Lemma check_returncode_zero (cmd : list string) (r : CompletedProcess) :
  returncode r = 0 -> check_returncode cmd r = ret tt.
Proof. intro H. unfold check_returncode. rewrite H. reflexivity. Qed.

Lemma check_returncode_nonzero (cmd : list string) (r : CompletedProcess) :
  returncode r <> 0 ->
  check_returncode cmd r =
  raise (CalledProcessError (returncode r) cmd (stdout r) (stderr r)).
Proof.
  intro H. unfold check_returncode.
  destruct (returncode r =? 0) eqn:E; [|reflexivity].
  apply Z.eqb_eq in E. contradiction.
Qed.

(** A non-zero exit of the MP4 pass ends the [try] block there. *)
Lemma encode_mp4_nonzero (env : Env) (f o name : string) (size d : Q) (b : Z)
    (r : CompletedProcess) :
  mp4_run env = Ok r -> returncode r <> 0 ->
  encode env f o name size d b =
  (Raise (CalledProcessError (returncode r)
            (mp4_cmd f ffmpeg_threads b (mp4_output_of f o)) (stdout r) (stderr r)),
   [Run Mp4Encoder (mp4_cmd f ffmpeg_threads b (mp4_output_of f o))]).
Proof.
  intros H1 H2. unfold encode. rewrite H1. run_step.
  rewrite check_returncode_nonzero by exact H2. reflexivity.
Qed.

Lemma size_mb_nonneg (n : N) : (0 <= size_mb n)%Q.
Proof.
  unfold size_mb. apply Qle_shift_div_l; [reflexivity|].
  rewrite Qmult_0_l. change 0%Q with (inject_Z 0). rewrite <- Zle_Qle. lia.
Qed.

Lemma size_mb_zero (n : N) : (size_mb n == 0)%Q <-> n = 0%N.
Proof.
  unfold size_mb. split.
  - intro H. destruct n as [|p]; [reflexivity|].
    unfold Qeq in H. simpl in H. lia.
  - intros ->. reflexivity.
Qed.

Lemma size_mb_le (m w : N) :
  Qle_bool (size_mb w) (size_mb m) = true <-> (w <= m)%N.
Proof.
  rewrite Qle_bool_iff. unfold size_mb. split; intro H.
  - apply Qmult_le_compat_r with (z := inject_Z (1024 * 1024)) in H; [|discriminate].
    setoid_replace (inject_Z (Z.of_N w) / inject_Z (1024 * 1024) * inject_Z (1024 * 1024))%Q
      with (inject_Z (Z.of_N w)) in H by (field; discriminate).
    setoid_replace (inject_Z (Z.of_N m) / inject_Z (1024 * 1024) * inject_Z (1024 * 1024))%Q
      with (inject_Z (Z.of_N m)) in H by (field; discriminate).
    rewrite <- Zle_Qle in H. lia.
  - apply Qmult_le_compat_r; [|discriminate].
    rewrite <- Zle_Qle. lia.
Qed.

Lemma float_div_size (x : Q) (n : N) :
  n <> 0%N -> float_div x (size_mb n) = Ok (x / size_mb n)%Q.
Proof.
  intro H. apply float_div_ok. rewrite size_mb_zero. exact H.
Qed.

Lemma try_except_trace (body : M (option TranscodeResult)) (name : string) :
  trace (try_except_CalledProcessError body (failure_handler name)) = trace body.
Proof.
  destruct body as [[a|e] t]; [reflexivity|].
  destruct e; try reflexivity. simpl. apply app_nil_r.
Qed.

Lemma try_except_caught (body : M (option TranscodeResult)) (name : string)
    (rc : Z) (cmd : list string) (out err : string) :
  outcome body = Raise (CalledProcessError rc cmd out err) ->
  outcome (try_except_CalledProcessError body (failure_handler name)) =
  Ok (Some (Failure name (CalledProcessError_str rc cmd))).
Proof.
  destruct body as [r t]. simpl. intros ->. reflexivity.
Qed.


(** Nothing before the [try] block starts an encoder. *)
Lemma process_video_trace (args : string * string) (env : Env) :
  trace (process_video args env) = [] \/
  trace (process_video args env) = [Run Ffprobe (ffprobe_cmd (fst args))] \/
  exists name size d b,
    trace (process_video args env) =
    Run Ffprobe (ffprobe_cmd (fst args)) ::
    trace (encode env (fst args) (snd args) name size d b).
Proof.
  destruct args as [f o]. unfold process_video. cbn [fst snd].
  destruct (mkdir_mp4 env) as [[]|e]; run_step; [|now left].
  destruct (mkdir_webm env) as [[]|e]; run_step; [|now left].
  destruct (get_video_info_shape env f) as [r ->]. run_step.
  destruct r as [info|]; run_step; [|now right; left].
  unfold get_video_size_mb.
  destruct (input_size env) as [n|e]; run_step; [|now right; left].
  destruct (calculate_target_bitrate (duration info)) as [b|e]; run_step;
    [|now right; left].
  right; right. exists (normalize f), (size_mb n), (duration info), b.
  set (body := encode env f o (normalize f) (size_mb n) (duration info) b).
  rewrite <- (try_except_trace body (normalize f)).
  destruct (try_except_CalledProcessError body _) as [r t]. reflexivity.
Qed.


(** The [try] block once the comparison is reached: the trace up to the
    first WebM pass, then the retry if the WebM is the larger. *)
Lemma encode_compared (env : Env) (f o name : string) (size d : Q) (b : Z)
    (info : VideoInfo) (n : N) (m w : N) :
  reaches_comparison env f info n b m w ->
  size = size_mb n ->
  let mp4 := mp4_output_of f o in
  let webm := webm_output_of f o in
  let run_mp4 := Run Mp4Encoder (mp4_cmd f ffmpeg_threads b mp4) in
  let first := Run WebmEncoder (webm_cmd mp4 ffmpeg_threads b webm) in
  let retry := Run WebmEncoder (webm_retry_cmd mp4 ffmpeg_threads b webm) in
  ((w <= m)%N ->
     encode env f o name size d b =
     (Ok (Some (Success name size (size_mb m) (size_mb w) d)), [run_mp4; first])) /\
  ((m < w)%N ->
     trace (encode env f o name size d b) = [run_mp4; first; retry]).
Proof.
  intros (_ & Hn & (r1 & E1 & Z1) & Ex & (r2 & E2 & Z2) & Em & Ew) -> .
  cbv zeta. unfold encode, get_video_size_mb.
  rewrite E1. run_step. rewrite (check_returncode_zero _ _ Z1). run_step.
  rewrite Ex, E2. run_step. rewrite (check_returncode_zero _ _ Z2). run_step.
  rewrite Em, Ew. run_step.
  rewrite !(float_div_size _ _ Hn). run_step.
  split; intro H.
  - apply size_mb_le in H. rewrite H. reflexivity.
  - destruct (Qle_bool (size_mb w) (size_mb m)) eqn:E.
    { apply size_mb_le in E. lia. }
    unfold check_returncode.
    destruct (webm_rerun env) as [r3|e]; run_step; [|reflexivity].
    destruct (returncode r3 =? 0); run_step; [|reflexivity].
    destruct (webm_regetsize env) as [w2|e]; run_step; [|reflexivity].
    rewrite (float_div_size _ _ Hn). reflexivity.
Qed.

(** A non-zero exit of the first WebM pass ends the [try] block there. *)
Lemma encode_webm_nonzero (env : Env) (f o name : string) (size d : Q) (b : Z)
    (r1 r : CompletedProcess) :
  mp4_run env = Ok r1 -> returncode r1 = 0 -> mp4_exists env = true ->
  webm_run env = Ok r -> returncode r <> 0 ->
  exists cmd,
    outcome (encode env f o name size d b) =
    Raise (CalledProcessError (returncode r) cmd (stdout r) (stderr r)).
Proof.
  intros E1 Z1 Ex E2 NZ. unfold encode.
  rewrite E1. run_step. rewrite (check_returncode_zero _ _ Z1). run_step.
  rewrite Ex, E2. run_step.
  rewrite check_returncode_nonzero by exact NZ. run_step.
  eexists. reflexivity.
Qed.

(** A non-zero exit of the retry ends the [try] block there. *)
Lemma encode_retry_nonzero (env : Env) (f o name : string) (d : Q) (b : Z)
    (info : VideoInfo) (n m w : N) (r : CompletedProcess) :
  reaches_comparison env f info n b m w -> (m < w)%N ->
  webm_rerun env = Ok r -> returncode r <> 0 ->
  exists cmd,
    outcome (encode env f o name (size_mb n) d b) =
    Raise (CalledProcessError (returncode r) cmd (stdout r) (stderr r)).
Proof.
  intros (_ & Hn & (r1 & E1 & Z1) & Ex & (r2 & E2 & Z2) & Em & Ew) Hlt E3 NZ.
  unfold encode, get_video_size_mb.
  rewrite E1. run_step. rewrite (check_returncode_zero _ _ Z1). run_step.
  rewrite Ex, E2. run_step. rewrite (check_returncode_zero _ _ Z2). run_step.
  rewrite Em, Ew. run_step.
  rewrite !(float_div_size _ _ Hn). run_step.
  destruct (Qle_bool (size_mb w) (size_mb m)) eqn:E.
  { apply size_mb_le in E. lia. }
  rewrite E3. run_step.
  rewrite check_returncode_nonzero by exact NZ. run_step.
  eexists. reflexivity.
Qed.

Lemma process_video_caught (env : Env) (f o : string)
    (info : VideoInfo) (n : N) (b : Z) (rc : Z) (cmd : list string) (out err : string) :
  reaches_encode env f info n b ->
  outcome (encode env f o (normalize f) (size_mb n) (duration info) b) =
    Raise (CalledProcessError rc cmd out err) ->
  outcome (process_video (f, o) env) =
    Ok (Some (Failure (normalize f) (CalledProcessError_str rc cmd))).
Proof.
  intros H E. rewrite (process_video_encode _ _ _ _ _ _ H).
  cbn [outcome fst]. apply (try_except_caught _ _ rc cmd out err), E.
Qed.

(** C3, amended.  Once the run is inside the [try] block, every
    CalledProcessError raised there is caught and becomes a Failure
    result holding [str(e)]; this is what a non-zero exit of the MP4
    pass, of the WebM pass and of the WebM retry raise. *)
Theorem encoder_errors_become_failures (env : Env) (f o : string)
    (info : VideoInfo) (n : N) (b : Z) :
  reaches_encode env f info n b ->
  (forall rc cmd out err,
     outcome (encode env f o (normalize f) (size_mb n) (duration info) b) =
       Raise (CalledProcessError rc cmd out err) ->
     outcome (process_video (f, o) env) =
       Ok (Some (Failure (normalize f) (CalledProcessError_str rc cmd)))) /\
  (forall r, mp4_run env = Ok r -> returncode r <> 0 ->
     exists cmd, outcome (process_video (f, o) env) =
       Ok (Some (Failure (normalize f) (CalledProcessError_str (returncode r) cmd)))) /\
  (forall r1 r, mp4_run env = Ok r1 -> returncode r1 = 0 -> mp4_exists env = true ->
     webm_run env = Ok r -> returncode r <> 0 ->
     exists cmd, outcome (process_video (f, o) env) =
       Ok (Some (Failure (normalize f) (CalledProcessError_str (returncode r) cmd)))) /\
  (forall m w r, reaches_comparison env f info n b m w -> (m < w)%N ->
     webm_rerun env = Ok r -> returncode r <> 0 ->
     exists cmd, outcome (process_video (f, o) env) =
       Ok (Some (Failure (normalize f) (CalledProcessError_str (returncode r) cmd)))).
Proof.
  intro H. split; [|split; [|split]].
  - intros rc cmd out err E. eapply process_video_caught; eassumption.
  - intros r E NZ. eexists. eapply process_video_caught; [exact H|].
    rewrite (encode_mp4_nonzero _ _ _ _ _ _ _ _ E NZ). reflexivity.
  - intros r1 r E1 Z1 Ex E2 NZ.
    destruct (encode_webm_nonzero env f o (normalize f) (size_mb n)
                (duration info) b r1 r E1 Z1 Ex E2 NZ) as [cmd Ec].
    exists cmd. eapply process_video_caught; eassumption.
  - intros m w r Hc Hlt E3 NZ.
    destruct (encode_retry_nonzero env f o (normalize f) (duration info) b
                info n m w r Hc Hlt E3 NZ) as [cmd Ec].
    exists cmd. eapply process_video_caught; eassumption.
Qed.

(** C6, amended.  When the MP4 pass exits with a non-zero status, the run
    returns a Failure result whose message is [str(e)] of the
    CalledProcessError: it names the command line and the exit status
    (the stderr text is printed, it is not in the record); the subprocesses
    started are ffprobe and the MP4 encoder, never the WebM encoder. *)
Theorem mp4_failure_result (env : Env) (f o : string)
    (info : VideoInfo) (n : N) (b : Z) (r : CompletedProcess) :
  reaches_encode env f info n b ->
  mp4_run env = Ok r -> returncode r <> 0 ->
  let cmd := mp4_cmd f ffmpeg_threads b (mp4_output_of f o) in
  process_video (f, o) env =
    (Ok (Some (Failure (normalize f) (CalledProcessError_str (returncode r) cmd))),
     [Run Ffprobe (ffprobe_cmd f); Run Mp4Encoder cmd]) /\
  webm_encode_count (trace (process_video (f, o) env)) = 0%nat.
Proof.
  intros H E NZ cmd.
  assert (P : process_video (f, o) env =
    (Ok (Some (Failure (normalize f) (CalledProcessError_str (returncode r) cmd))),
     [Run Ffprobe (ffprobe_cmd f); Run Mp4Encoder cmd])).
  { rewrite (process_video_encode _ _ _ _ _ _ H).
    rewrite (encode_mp4_nonzero _ _ _ _ _ _ _ _ E NZ). reflexivity. }
  split; [exact P|]. rewrite P. reflexivity.
Qed.


(** ** The batch *)

Lemma executor_map_ok {A B} (f : A -> res B) (l : list A) :
  (forall a, In a l -> exists b, f a = Ok b) ->
  exists bs, executor_map f l = Ok bs /\ Forall2 (fun a b => f a = Ok b) l bs.
Proof.
  induction l as [|a rest IH]; intro H.
  - exists []. split; [reflexivity | constructor].
  - destruct (H a (or_introl eq_refl)) as [b Eb].
    destruct IH as [bs [Ebs F]]; [intros x Hx; apply H; now right|].
    exists (b :: bs). simpl. rewrite Eb. simpl. rewrite Ebs. simpl.
    split; [reflexivity | now constructor].
Qed.

Lemma result_partition (rs : list (option TranscodeResult)) :
  (length (select_successful rs) + length (select_failed rs) + count_none rs
   = length rs)%nat.
Proof.
  unfold count_none.
  induction rs as [|[r|] rest IH]; simpl; [reflexivity| |lia].
  destruct (result_success r); simpl; lia.
Qed.

Lemma select_successful_in (rs : list (option TranscodeResult)) (r : TranscodeResult) :
  In r (select_successful rs) -> In (Some r) rs /\ result_success r = true.
Proof.
  induction rs as [|[x|] rest IH]; simpl; [tauto| |].
  - destruct (result_success x) eqn:E.
    + intros [-> | H]; [split; [now left | exact E]|].
      destruct (IH H); split; [now right | assumption].
    + intro H. destruct (IH H); split; [now right | assumption].
  - intro H. destruct (IH H); split; [now right | assumption].
Qed.

(** A Success result gives the size of a non-empty input. *)
Lemma encode_success_size (env : Env) (f o name : string) (size d : Q) (b : Z)
    (name' : string) (o' m' w' d' : Q) :
  outcome (encode env f o name size d b) = Ok (Some (Success name' o' m' w' d')) ->
  o' = size /\ ~ (size == 0)%Q.
Proof.
  unfold encode, check_returncode, get_video_size_mb.
  destruct (mp4_run env) as [r1|e]; run_step; [|discriminate].
  destruct (returncode r1 =? 0); run_step; [|discriminate].
  destruct (mp4_exists env); run_step; [|discriminate].
  destruct (webm_run env) as [r2|e]; run_step; [|discriminate].
  destruct (returncode r2 =? 0); run_step; [|discriminate].
  destruct (mp4_getsize env) as [m|e]; run_step; [|discriminate].
  destruct (webm_getsize env) as [w|e]; run_step; [|discriminate].
  unfold float_div at 1.
  destruct (Qeq_bool size 0) eqn:Z; run_step; [discriminate|].
  apply Qeq_bool_neq in Z.
  destruct (float_div (size_mb w) size) as [q2|e]; run_step; [|discriminate].
  destruct (Qle_bool (size_mb w) (size_mb m)); run_step.
  { intro H. apply Ok_inj in H. injection H as _ <- _ _ _. now split. }
  destruct (webm_rerun env) as [r3|e]; run_step; [|discriminate].
  destruct (returncode r3 =? 0); run_step; [|discriminate].
  destruct (webm_regetsize env) as [w2|e]; run_step; [|discriminate].
  destruct (float_div (size_mb w2) size) as [q3|e]; run_step; [|discriminate].
  intro H. apply Ok_inj in H. injection H as _ <- _ _ _. now split.
Qed.

Lemma process_video_success_size (args : string * string) (env : Env)
    (name : string) (o' m' w' d' : Q) :
  outcome (process_video args env) = Ok (Some (Success name o' m' w' d')) ->
  (0 < o')%Q.
Proof.
  destruct args as [f o]. unfold process_video.
  destruct (mkdir_mp4 env) as [[]|e]; run_step; [|discriminate].
  destruct (mkdir_webm env) as [[]|e]; run_step; [|discriminate].
  destruct (get_video_info_shape env f) as [r ->]. run_step.
  destruct r as [info|]; run_step; [|discriminate].
  unfold get_video_size_mb.
  destruct (input_size env) as [n|e]; run_step; [|discriminate].
  destruct (calculate_target_bitrate (duration info)) as [b|e]; run_step;
    [|discriminate].
  pose proof (encode_success_size env f o (normalize f) (size_mb n)
                (duration info) b name o' m' w' d') as Henc.
  destruct (encode env f o (normalize f) (size_mb n) (duration info) b)
    as [[res|e] t]; cbn [outcome fst] in Henc.
  - cbn. intro H. destruct (Henc H) as [-> NZ].
    pose proof (size_mb_nonneg n) as Hn.
    apply Qle_lteq in Hn. destruct Hn as [Hn | Hn]; [exact Hn|].
    exfalso. apply NZ. symmetry. exact Hn.
  - destruct e; cbn; discriminate.
Qed.

Lemma sum_of_positive (l : list TranscodeResult) :
  l <> [] ->
  Forall (fun r => 0 < original_size_of r)%Q l ->
  (0 < sum_of original_size_of l)%Q.
Proof.
  intros Hne F. induction F as [|r rest Hr F IH]; [contradiction|].
  simpl. destruct rest as [|r' rest'].
  - simpl. lra.
  - assert (0 < sum_of original_size_of (r' :: rest'))%Q
      by (apply IH; discriminate).
    lra.
Qed.

Lemma Forall2_map_left {A B C} (g : A -> B) (P : B -> C -> Prop)
    (l : list A) (cs : list C) :
  Forall2 P (map g l) cs -> Forall2 (fun a c => P (g a) c) l cs.
Proof.
  revert cs. induction l as [|a rest IH]; intros cs H; inversion H; subst.
  - constructor.
  - constructor; [assumption | now apply IH].
Qed.

Lemma Forall2_in_right {A B} (P : A -> B -> Prop) (l : list A) (bs : list B) (b : B) :
  Forall2 P l bs -> In b bs -> exists a, In a l /\ P a b.
Proof.
  induction 1 as [|a b' l' bs' Hab F IH]; intro Hin; [contradiction|].
  destruct Hin as [-> | Hin].
  - exists a. split; [now left | assumption].
  - destruct (IH Hin) as [a' [Ha' Pa']]. exists a'. split; [now right | assumption].
Qed.

Lemma probe_none_no_record (env : Env) (f o : string) :
  outcome (get_video_info env f) = Ok None ->
  encode_count (trace (process_video (f, o) env)) = 0%nat /\
  (forall r, outcome (process_video (f, o) env) = Ok r -> r = None).
Proof.
  intro H. unfold process_video.
  destruct (mkdir_mp4 env) as [[]|e]; run_step; [|split; [reflexivity|discriminate]].
  destruct (mkdir_webm env) as [[]|e]; run_step; [|split; [reflexivity|discriminate]].
  rewrite (get_video_info_outcome _ _ _ H). run_step.
  split; [reflexivity|]. intros r E. apply Ok_inj in E. now subst.
Qed.

(** C1, amended.  When no dispatched asset raises, the batch completes
    and its result list has exactly one entry per supported file, in
    dispatch order: the value that file's [process_video] returned, which
    is a Success record, a Failure record or None.  The entries split
    into the successes, the failures and the None entries, which the
    summary counts on neither side.  An asset whose probe returns None
    has the entry None and starts no encoder. *)
Theorem batch_one_entry_per_asset (world : string -> Env)
    (all_files : list string) (o : string) :
  let video_files := filter is_supported all_files in
  video_files <> [] ->
  (forall f, In f video_files ->
     exists r, outcome (process_video (f, o) (world f)) = Ok r) ->
  exists report,
    batch_process_videos world all_files o = Ok (Some report) /\
    length (results report) = length video_files /\
    Forall2 (fun f r => outcome (process_video (f, o) (world f)) = Ok r)
      video_files (results report) /\
    (length (successful report) + length (failed report)
     + count_none (results report) = length video_files)%nat /\
    (forall f, In f video_files ->
       outcome (get_video_info (world f) f) = Ok None ->
       outcome (process_video (f, o) (world f)) = Ok None /\
       encode_count (trace (process_video (f, o) (world f))) = 0%nat).
Proof.
  intros video_files Hne Hall.
  destruct (executor_map_ok
              (fun args => outcome (process_video args (world (fst args))))
              (map (fun video_file => (video_file, o)) video_files))
    as [rs [Ers F]].
  { intros a Ha. apply in_map_iff in Ha as [f [<- Hf]]. apply Hall, Hf. }
  apply Forall2_map_left in F. cbn [fst] in F.
  assert (Hpos : Forall (fun r => 0 < original_size_of r)%Q (select_successful rs)).
  { apply Forall_forall. intros r Hr.
    apply select_successful_in in Hr as [Hin Hs].
    destruct (Forall2_in_right _ _ _ _ F Hin) as [f [_ Ef]].
    destruct r as [name o' m' w' d'|]; [|discriminate].
    simpl. eapply process_video_success_size. exact Ef. }
  assert (Htot : exists totals,
    match select_successful rs with
    | [] => Ok None
    | _ :: _ =>
        res_bind (float_div (sum_of mp4_size_of (select_successful rs))
                    (sum_of original_size_of (select_successful rs))) (fun _ =>
        res_bind (float_div (sum_of webm_size_of (select_successful rs))
                    (sum_of original_size_of (select_successful rs))) (fun _ =>
        Ok (Some (sum_of original_size_of (select_successful rs),
                  sum_of mp4_size_of (select_successful rs),
                  sum_of webm_size_of (select_successful rs)))))
    end = Ok totals).
  { destruct (select_successful rs) as [|r rest] eqn:Es; [eexists; reflexivity|].
    assert (Hs : (0 < sum_of original_size_of (r :: rest))%Q)
      by (apply sum_of_positive; [discriminate | exact Hpos]).
    rewrite !float_div_ok by (intro E; rewrite E in Hs; discriminate Hs).
    eexists. reflexivity. }
  destruct Htot as [totals Etot].
  unfold batch_process_videos. fold video_files.
  destruct video_files as [|v vs] eqn:Ev; [contradiction|].
  rewrite Ers. cbn [res_bind]. rewrite Etot. cbn [res_bind].
  eexists. split; [reflexivity|]. cbn [results successful failed].
  split; [symmetry; eapply Forall2_length; exact F|].
  split; [exact F|].
  split; [rewrite result_partition; symmetry; eapply Forall2_length; exact F|].
  intros f Hf Hnone.
  destruct (probe_none_no_record (world f) f o Hnone) as [Hc Hr].
  split; [|exact Hc].
  destruct (Hall f Hf) as [r Er]. rewrite Er. f_equal. now apply Hr.
Qed.

(** ** Further properties of the names *)

Lemma normal_chr_safe (c : ascii) :
  normal_chr c = true ->
  (Py.chr_isalnum c || Py.chr_in c "-_")
  && Ascii.eqb (Py.chr_lower c) c
  && negb (Py.chr_in c " ./") = true.
Proof.
  destruct c as [[] [] [] [] [] [] [] []]; vm_compute; intro H;
    first [reflexivity | discriminate H].
Qed.

(** X1.  Every character of a formatted name is alphanumeric, a hyphen or
    an underscore, is its own lowercase, and is neither a space, a dot nor
    a slash: the name is one plain path component. *)
Theorem format_filename_safe (x : string) :
  Py.str_forall
    (fun c => (Py.chr_isalnum c || Py.chr_in c "-_")
              && Ascii.eqb (Py.chr_lower c) c
              && negb (Py.chr_in c " ./"))
    (format_filename x) = true.
Proof.
  apply (str_forall_weaken normal_chr); [exact normal_chr_safe|].
  apply format_filename_normal.
Qed.




Lemma name_step_lower (c : ascii) : name_step (Py.chr_lower c) = name_step c.
Proof.
  destruct c as [[] [] [] [] [] [] [] []]; reflexivity.
Qed.

Lemma name_step_hyphen (c : ascii) :
  name_step (if Ascii.eqb c " " then "-"%char else c) = name_step c.
Proof.
  destruct c as [[] [] [] [] [] [] [] []]; reflexivity.
Qed.

Lemma str_map_ext_format (g : ascii -> ascii) (x : string) :
  (forall c, name_step (g c) = name_step c) ->
  format_filename (Py.str_map g x) = format_filename x.
Proof.
  intro H. rewrite !format_filename_unfold.
  induction x as [|c r IH]; simpl; [reflexivity|].
  rewrite H, IH. reflexivity.
Qed.

(** X3.  Names that differ only in letter case, or only in spaces against
    hyphens, are formatted alike: formatting is not injective, and such
    inputs share their output names. *)
Theorem format_filename_insensitive (x : string) :
  format_filename (Py.lower x) = format_filename x /\
  format_filename (Py.replace " " "-" x) = format_filename x.
Proof.
  split.
  - apply str_map_ext_format, name_step_lower.
  - apply str_map_ext_format, name_step_hyphen.
Qed.

(** ** Further properties of the planner and of the sizes *)











(** X7.  [get_video_size_mb] passes on the error of [os.path.getsize] and
    starts no subprocess; the sizes it returns are never negative, are 0
    exactly for an empty file, compare as the byte counts do, and give the
    byte count back when multiplied by [1024 * 1024]. *)
Theorem get_video_size_mb_faithful (m w : N) (e : exn) :
  get_video_size_mb (Raise e) = (Raise e, []) /\
  get_video_size_mb (Ok m) = (Ok (size_mb m), []) /\
  (0 <= size_mb m)%Q /\
  ((size_mb m == 0)%Q <-> m = 0%N) /\
  (Qle_bool (size_mb w) (size_mb m) = true <-> (w <= m)%N) /\
  (size_mb m * inject_Z (1024 * 1024) == inject_Z (Z.of_N m))%Q.
Proof.
  split; [reflexivity|]. split; [reflexivity|].
  split; [apply size_mb_nonneg|]. split; [apply size_mb_zero|].
  split; [apply size_mb_le|].
  unfold size_mb. field. discriminate.
Qed.

(** ** Further properties of the probe and of one run *)

(** X8.  Edge cases of the probe.  An answer without a "streams" key
    gives the all-zero metadata; an empty stream list, a first stream that
    is not an object, an answer that is not an object, and a field that is
    present but null all give None. *)
Theorem get_video_info_edges (env : Env) (f : string) (top : list (string * json)) :
  (ffprobe_json env = Ok (JDict top) -> dict_lookup top "streams" = None ->
     outcome (get_video_info env f)
     = Ok (Some {| width := 0; height := 0; duration := inject_Z 0 |})) /\
  (ffprobe_json env = Ok (JDict top) ->
     dict_lookup top "streams" = Some (JList []) ->
     outcome (get_video_info env f) = Ok None) /\
  (forall first rest,
     ffprobe_json env = Ok (JDict top) ->
     dict_lookup top "streams" = Some (JList (first :: rest)) ->
     (forall items, first <> JDict items) ->
     outcome (get_video_info env f) = Ok None) /\
  (forall v, ffprobe_json env = Ok v -> (forall items, v <> JDict items) ->
     outcome (get_video_info env f) = Ok None) /\
  (forall items rest key,
     ffprobe_json env = Ok (JDict top) ->
     dict_lookup top "streams" = Some (JList (JDict items :: rest)) ->
     In key ["width"; "height"; "duration"] ->
     dict_lookup items key = Some JNull ->
     outcome (get_video_info env f) = Ok None).
Proof.
  split; [|split; [|split; [|split]]].
  - intros E S. unfold get_video_info, get_video_info_body.
    rewrite E. run_step. unfold json_get at 1. rewrite S. reflexivity.
  - intros E S. unfold get_video_info, get_video_info_body.
    rewrite E. run_step. unfold json_get at 1. rewrite S. reflexivity.
  - intros first rest E S Hno. unfold get_video_info, get_video_info_body.
    rewrite E. run_step. unfold json_get at 1. rewrite S. run_step.
    destruct first; try reflexivity. exfalso. eapply Hno. reflexivity.
  - intros v E Hno. unfold get_video_info, get_video_info_body.
    rewrite E. run_step.
    destruct v; try reflexivity. exfalso. eapply Hno. reflexivity.
  - intros items rest key E S Hkey Hnull.
    unfold get_video_info, get_video_info_body.
    rewrite E. run_step. unfold json_get at 1. rewrite S.
    cbn [json_index0]. run_step. unfold json_get.
    destruct Hkey as [<- | [<- | [<- | []]]]; rewrite Hnull; run_step.
    + reflexivity.
    + destruct (py_int _); reflexivity.
    + destruct (py_int _); run_step; [|reflexivity].
      destruct (py_int _); reflexivity.
Qed.

Lemma returncode_zero (r : CompletedProcess) :
  (returncode r =? 0) = true -> returncode r = 0.
Proof. apply Z.eqb_eq. Qed.

Lemma size_mb_gt (m w : N) :
  Qle_bool (size_mb w) (size_mb m) = false -> (m < w)%N.
Proof.
  intro H. destruct (N.le_gt_cases w m) as [Hle | Hgt]; [|exact Hgt].
  apply size_mb_le in Hle. rewrite Hle in H. discriminate H.
Qed.

Lemma float_div_nonzero (x y q : Q) : float_div x y = Ok q -> ~ (y == 0)%Q.
Proof.
  unfold float_div. destruct (Qeq_bool y 0) eqn:E; [discriminate|].
  intros _. now apply Qeq_bool_neq.
Qed.

(** What a Success out of the [try] block tells: every step before it
    succeeded, and the sizes are the measured ones. *)
Lemma encode_success_inv (env : Env) (f o name : string) (size d : Q) (b : Z)
    (name' : string) (o' m' w' d' : Q) :
  outcome (encode env f o name size d b) = Ok (Some (Success name' o' m' w' d')) ->
  ~ (size == 0)%Q /\ name' = name /\ o' = size /\ d' = d /\
  (exists r, mp4_run env = Ok r /\ returncode r = 0) /\
  mp4_exists env = true /\
  (exists r, webm_run env = Ok r /\ returncode r = 0) /\
  exists m w,
    mp4_getsize env = Ok m /\ webm_getsize env = Ok w /\ m' = size_mb m /\
    (((w <= m)%N /\ w' = size_mb w /\
      trace (encode env f o name size d b) = firstn 2 (tl (full_trace f o b))) \/
     ((m < w)%N /\
      (exists r, webm_rerun env = Ok r /\ returncode r = 0) /\
      exists w2, webm_regetsize env = Ok w2 /\ w' = size_mb w2 /\
      trace (encode env f o name size d b) = tl (full_trace f o b))).
Proof.
  unfold encode, check_returncode, get_video_size_mb, full_trace.
  cbn [tl firstn].
  destruct (mp4_run env) as [r1|e] eqn:E1; run_step; [|discriminate].
  destruct (returncode r1 =? 0) eqn:Z1; run_step; [|discriminate].
  destruct (mp4_exists env) eqn:Ex; run_step; [|discriminate].
  destruct (webm_run env) as [r2|e] eqn:E2; run_step; [|discriminate].
  destruct (returncode r2 =? 0) eqn:Z2; run_step; [|discriminate].
  destruct (mp4_getsize env) as [m|e] eqn:Em; run_step; [|discriminate].
  destruct (webm_getsize env) as [w|e] eqn:Ew; run_step; [|discriminate].
  destruct (float_div (size_mb m) size) as [q1|e] eqn:F1; run_step; [|discriminate].
  assert (Zs : ~ (size == 0)%Q) by exact (float_div_nonzero _ _ _ F1).
  destruct (float_div (size_mb w) size) as [q2|e]; run_step; [|discriminate].
  apply returncode_zero in Z1, Z2.
  destruct (Qle_bool (size_mb w) (size_mb m)) eqn:Cmp; run_step.
  { intro H. apply Ok_inj in H. injection H as <- <- <- <- <-.
    repeat (split; [first [assumption | reflexivity
                          | eexists; split; [reflexivity | eassumption]]|]).
    exists m, w. repeat (split; [reflexivity|]).
    left. apply size_mb_le in Cmp. split; [exact Cmp|]. split; reflexivity. }
  destruct (webm_rerun env) as [r3|e] eqn:E3; run_step; [|discriminate].
  destruct (returncode r3 =? 0) eqn:Z3; run_step; [|discriminate].
  destruct (webm_regetsize env) as [w2|e] eqn:Ew2; run_step; [|discriminate].
  destruct (float_div (size_mb w2) size) as [q3|e]; run_step; [|discriminate].
  apply returncode_zero in Z3.
  intro H. apply Ok_inj in H. injection H as <- <- <- <- <-.
  repeat (split; [first [assumption | reflexivity
                          | eexists; split; [reflexivity | eassumption]]|]).
  exists m, w. repeat (split; [reflexivity|]).
  right. apply size_mb_gt in Cmp. split; [exact Cmp|].
  split; [exists r3; split; [reflexivity | exact Z3]|].
  exists w2. split; [reflexivity|]. split; reflexivity.
Qed.

Lemma encode_trace_prefix (env : Env) (f o name : string) (size d : Q) (b : Z) :
  exists k, (1 <= k <= 3)%nat /\
    trace (encode env f o name size d b) = firstn k (tl (full_trace f o b)).
Proof.
  unfold encode, check_returncode, get_video_size_mb, full_trace.
  cbn [tl].
  destruct (mp4_run env) as [r1|e]; run_step; [|exists 1%nat; split; [lia|reflexivity]].
  destruct (returncode r1 =? 0); run_step; [|exists 1%nat; split; [lia|reflexivity]].
  destruct (mp4_exists env); run_step; [|exists 1%nat; split; [lia|reflexivity]].
  destruct (webm_run env) as [r2|e]; run_step; [|exists 2%nat; split; [lia|reflexivity]].
  destruct (returncode r2 =? 0); run_step; [|exists 2%nat; split; [lia|reflexivity]].
  destruct (mp4_getsize env) as [m|e]; run_step; [|exists 2%nat; split; [lia|reflexivity]].
  destruct (webm_getsize env) as [w|e]; run_step; [|exists 2%nat; split; [lia|reflexivity]].
  destruct (float_div (size_mb m) size) as [q1|e]; run_step;
    [|exists 2%nat; split; [lia|reflexivity]].
  destruct (float_div (size_mb w) size) as [q2|e]; run_step;
    [|exists 2%nat; split; [lia|reflexivity]].
  destruct (Qle_bool (size_mb w) (size_mb m)); run_step;
    [exists 2%nat; split; [lia|reflexivity]|].
  destruct (webm_rerun env) as [r3|e]; run_step; [|exists 3%nat; split; [lia|reflexivity]].
  destruct (returncode r3 =? 0); run_step; [|exists 3%nat; split; [lia|reflexivity]].
  destruct (webm_regetsize env) as [w2|e]; run_step;
    [|exists 3%nat; split; [lia|reflexivity]].
  destruct (float_div (size_mb w2) size) as [q3|e]; run_step;
    exists 3%nat; split; first [lia|reflexivity].
Qed.

(** X9.  The subprocesses of a run are an initial part of the sequence
    ffprobe, MP4 pass, WebM pass, WebM retry, with the command lines of
    one planned bitrate: no encoder starts before ffprobe, no WebM pass
    before the MP4 pass, nothing runs twice but the WebM encoder, and both
    WebM passes read the file the MP4 pass wrote. *)
Theorem subprocess_order (f o : string) (env : Env) :
  exists k b, (k <= 4)%nat /\
    trace (process_video (f, o) env) = firstn k (full_trace f o b).
Proof.
  destruct (process_video_trace (f, o) env)
    as [E | [E | (name & size & d & b & E)]]; cbn [fst snd] in E.
  - exists 0%nat, 0. split; [lia|]. rewrite E. reflexivity.
  - exists 1%nat, 0. split; [lia|]. rewrite E. reflexivity.
  - destruct (encode_trace_prefix env f o name size d b) as [k [Hk Ek]].
    exists (S k), b. split; [lia|]. rewrite E, Ek. reflexivity.
Qed.

Lemma process_video_some_inv (env : Env) (f o : string) (r : TranscodeResult) :
  outcome (process_video (f, o) env) = Ok (Some r) ->
  exists info n b, reaches_encode env f info n b.
Proof.
  unfold process_video, reaches_encode.
  destruct (mkdir_mp4 env) as [[]|e]; run_step; [|discriminate].
  destruct (mkdir_webm env) as [[]|e]; run_step; [|discriminate].
  destruct (get_video_info_shape env f) as [r' Eg]. rewrite Eg. run_step.
  destruct r' as [info|]; run_step; [|discriminate].
  unfold get_video_size_mb.
  destruct (input_size env) as [n|e]; run_step; [|discriminate].
  destruct (calculate_target_bitrate (duration info)) as [b|e] eqn:Eb; run_step;
    [|discriminate].
  intros _. exists info, n, b. repeat split; assumption.
Qed.

Lemma try_except_ok_inv (body : M (option TranscodeResult)) (name : string)
    (r : option TranscodeResult) :
  outcome (try_except_CalledProcessError body (failure_handler name)) = Ok r ->
  outcome body = Ok r \/
  exists rc cmd out err,
    outcome body = Raise (CalledProcessError rc cmd out err) /\
    r = Some (Failure name (CalledProcessError_str rc cmd)).
Proof.
  destruct body as [[a|e] t]; cbn.
  - intro H. now left.
  - destruct e; cbn; try discriminate.
    intro H. apply Ok_inj in H. right. eexists _, _, _, _. split; [reflexivity|].
    now subst.
Qed.

(** The [try] block returns None only for a missing MP4, and never a
    Failure record of its own. *)
Lemma encode_ok_inv (env : Env) (f o name : string) (size d : Q) (b : Z)
    (r : option TranscodeResult) :
  outcome (encode env f o name size d b) = Ok r ->
  (r = None /\ exists c, mp4_run env = Ok c /\ returncode c = 0 /\
                         mp4_exists env = false) \/
  (exists name' o' m' w' d', r = Some (Success name' o' m' w' d')).
Proof.
  unfold encode, check_returncode, get_video_size_mb.
  destruct (mp4_run env) as [r1|e] eqn:E1; run_step; [|discriminate].
  destruct (returncode r1 =? 0) eqn:Z1; run_step; [|discriminate].
  apply returncode_zero in Z1.
  destruct (mp4_exists env) eqn:Ex; run_step.
  2:{ intro H. apply Ok_inj in H. left. split; [now subst|].
      exists r1. repeat split; first [reflexivity | assumption]. }
  destruct (webm_run env) as [r2|e]; run_step; [|discriminate].
  destruct (returncode r2 =? 0); run_step; [|discriminate].
  destruct (mp4_getsize env) as [m|e]; run_step; [|discriminate].
  destruct (webm_getsize env) as [w|e]; run_step; [|discriminate].
  destruct (float_div (size_mb m) size) as [q1|e]; run_step; [|discriminate].
  destruct (float_div (size_mb w) size) as [q2|e]; run_step; [|discriminate].
  destruct (Qle_bool (size_mb w) (size_mb m)); run_step.
  { intro H. apply Ok_inj in H. right. eexists _, _, _, _, _. now subst. }
  destruct (webm_rerun env) as [r3|e]; run_step; [|discriminate].
  destruct (returncode r3 =? 0); run_step; [|discriminate].
  destruct (webm_regetsize env) as [w2|e]; run_step; [|discriminate].
  destruct (float_div (size_mb w2) size) as [q3|e]; run_step; [|discriminate].
  intro H. apply Ok_inj in H. right. eexists _, _, _, _, _. now subst.
Qed.

Lemma process_video_split (env : Env) (f o : string)
    (info : VideoInfo) (n : N) (b : Z) :
  reaches_encode env f info n b ->
  outcome (process_video (f, o) env) =
    outcome (try_except_CalledProcessError
               (encode env f o (normalize f) (size_mb n) (duration info) b)
               (failure_handler (normalize f))) /\
  trace (process_video (f, o) env) =
    Run Ffprobe (ffprobe_cmd f) ::
    trace (encode env f o (normalize f) (size_mb n) (duration info) b).
Proof.
  intro H. rewrite (process_video_encode _ _ _ _ _ _ H).
  cbn [outcome trace fst snd]. rewrite try_except_trace. split; reflexivity.
Qed.

(** X10.  A run that reaches the size comparison succeeds as follows.  If
    the WebM is not larger than the MP4, the result is the Success record
    of the three measured sizes, after three subprocesses.  If it is
    larger and the retry exits with status 0, the record holds the size
    measured after the retry, whatever it is (it is not compared again),
    after four subprocesses. *)
Theorem success_result (env : Env) (f o : string)
    (info : VideoInfo) (n : N) (b : Z) (m w : N) :
  reaches_comparison env f info n b m w ->
  ((w <= m)%N ->
     process_video (f, o) env =
     (Ok (Some (Success (normalize f) (size_mb n) (size_mb m) (size_mb w)
                  (duration info))),
      firstn 3 (full_trace f o b))) /\
  (forall r w2,
     (m < w)%N -> webm_rerun env = Ok r -> returncode r = 0 ->
     webm_regetsize env = Ok w2 ->
     process_video (f, o) env =
     (Ok (Some (Success (normalize f) (size_mb n) (size_mb m) (size_mb w2)
                  (duration info))),
      full_trace f o b)).
Proof.
  intro Hc. pose proof Hc as (He & Hn & (r1 & E1 & Z1) & Ex & (r2 & E2 & Z2) & Em & Ew).
  rewrite (process_video_encode _ _ _ _ _ _ He).
  split.
  - intro Hle.
    destruct (encode_compared env f o (normalize f) (size_mb n) (duration info) b
                info n m w Hc eq_refl) as [Hcase _].
    rewrite (Hcase Hle). reflexivity.
  - intros r w2 Hlt E3 Z3 Ew2.
    unfold encode, get_video_size_mb.
    rewrite E1. run_step. rewrite (check_returncode_zero _ _ Z1). run_step.
    rewrite Ex, E2. run_step. rewrite (check_returncode_zero _ _ Z2). run_step.
    rewrite Em, Ew. run_step.
    rewrite !(float_div_size _ _ Hn). run_step.
    destruct (Qle_bool (size_mb w) (size_mb m)) eqn:Cmp.
    { apply size_mb_le in Cmp. lia. }
    rewrite E3. run_step. rewrite (check_returncode_zero _ _ Z3). run_step.
    rewrite Ew2. run_step. rewrite (float_div_size _ _ Hn). reflexivity.
Qed.

(** X11.  A Success record is returned only by a run in which every step
    succeeded: the run reached the size comparison, the record holds the
    formatted stem, the probed duration and the measured sizes (the WebM
    size of the retry when there was one), and three or four subprocesses
    were started. *)
Theorem success_only_when_all_succeeded (env : Env) (f o : string)
    (name : string) (osz msz wsz d : Q) :
  outcome (process_video (f, o) env) = Ok (Some (Success name osz msz wsz d)) ->
  exists info n b m w,
    reaches_comparison env f info n b m w /\
    name = normalize f /\ osz = size_mb n /\ msz = size_mb m /\
    d = duration info /\
    (((w <= m)%N /\ wsz = size_mb w /\
      trace (process_video (f, o) env) = firstn 3 (full_trace f o b)) \/
     ((m < w)%N /\
      (exists r, webm_rerun env = Ok r /\ returncode r = 0) /\
      exists w2, webm_regetsize env = Ok w2 /\ wsz = size_mb w2 /\
      trace (process_video (f, o) env) = full_trace f o b)).
Proof.
  intro H.
  destruct (process_video_some_inv _ _ _ _ H) as (info & n & b & He).
  destruct (process_video_split env f o info n b He) as [Eo Et].
  rewrite Eo in H.
  destruct (try_except_ok_inv _ _ _ H) as [Hb | (rc & cmd & out & err & _ & Hf)];
    [|discriminate Hf].
  destruct (encode_success_inv _ _ _ _ _ _ _ _ _ _ _ _ Hb)
    as (Hs & -> & -> & -> & Hmp4 & Hex & Hwebm & m & w & Em & Ew & -> & Hcase).
  exists info, n, b, m, w.
  split.
  { unfold reaches_comparison. split; [exact He|].
    split; [intro Z; apply Hs; now apply size_mb_zero|].
    repeat (split; [assumption|]). assumption. }
  repeat (split; [reflexivity|]).
  rewrite Et.
  destruct Hcase as [(Hle & -> & Etr) | (Hlt & Hr & w2 & Ew2 & -> & Etr)].
  - left. repeat split; try assumption. rewrite Etr. reflexivity.
  - right. split; [exact Hlt|]. split; [exact Hr|].
    exists w2. repeat split; try assumption. rewrite Etr. reflexivity.
Qed.

(** X12.  A Failure record is returned only for a CalledProcessError
    raised inside the [try] block: the run got past the probe and the
    planner and started the MP4 encoder, the record holds the formatted
    stem, and its message is [str(e)].  A failed probe never gives one. *)
Theorem failure_only_from_encoder_error (env : Env) (f o : string)
    (name msg : string) :
  outcome (process_video (f, o) env) = Ok (Some (Failure name msg)) ->
  name = normalize f /\
  exists info n b rc cmd out err,
    reaches_encode env f info n b /\
    outcome (encode env f o (normalize f) (size_mb n) (duration info) b)
      = Raise (CalledProcessError rc cmd out err) /\
    msg = CalledProcessError_str rc cmd /\
    In (Run Mp4Encoder (mp4_cmd f ffmpeg_threads b (mp4_output_of f o)))
       (trace (process_video (f, o) env)).
Proof.
  intro H.
  destruct (process_video_some_inv _ _ _ _ H) as (info & n & b & He).
  destruct (process_video_split env f o info n b He) as [Eo Et].
  rewrite Eo in H.
  destruct (try_except_ok_inv _ _ _ H) as [Hb | (rc & cmd & out & err & Hb & Hf)].
  - destruct (encode_ok_inv _ _ _ _ _ _ _ _ Hb)
      as [[Hn _] | (n' & o' & m' & w' & d' & Hs)]; discriminate.
  - injection Hf as -> ->. split; [reflexivity|].
    exists info, n, b, rc, cmd, out, err.
    split; [exact He|]. split; [exact Hb|]. split; [reflexivity|].
    rewrite Et.
    destruct (encode_trace_prefix env f o (normalize f) (size_mb n)
                (duration info) b) as [k [Hk Ek]].
    rewrite Ek. right.
    destruct k as [|k]; [lia|]. left. reflexivity.
Qed.

(** X13.  A run returns None in exactly two cases: the probe returned
    None, or the MP4 pass exited with status 0 and yet its output file
    does not exist (then no WebM pass is started). *)
Theorem none_result_iff (env : Env) (f o : string) :
  outcome (process_video (f, o) env) = Ok None <->
  mkdir_mp4 env = Ok tt /\ mkdir_webm env = Ok tt /\
  (outcome (get_video_info env f) = Ok None \/
   exists info n b c,
     reaches_encode env f info n b /\
     mp4_run env = Ok c /\ returncode c = 0 /\ mp4_exists env = false /\
     trace (process_video (f, o) env) = firstn 2 (full_trace f o b)).
Proof.
  split.
  - intro H.
    assert (Hinv : mkdir_mp4 env = Ok tt /\ mkdir_webm env = Ok tt /\
      (outcome (get_video_info env f) = Ok None \/
       exists info n b, reaches_encode env f info n b)).
    { revert H. unfold process_video, reaches_encode.
      destruct (mkdir_mp4 env) as [[]|e]; run_step; [|discriminate].
      destruct (mkdir_webm env) as [[]|e]; run_step; [|discriminate].
      destruct (get_video_info_shape env f) as [r' Eg]. rewrite Eg. run_step.
      destruct r' as [info|]; run_step; [|intros _; repeat split; now left].
      unfold get_video_size_mb.
      destruct (input_size env) as [n|e]; run_step; [|discriminate].
      destruct (calculate_target_bitrate (duration info)) as [b|e] eqn:Eb;
        run_step; [|discriminate].
      intros _. repeat split. right. exists info, n, b. repeat split; assumption. }
    destruct Hinv as (M1 & M2 & [Hp | (info & n & b & He)]).
    + repeat split; try assumption. now left.
    + repeat split; try assumption. right.
      destruct (process_video_split env f o info n b He) as [Eo Et].
      rewrite Eo in H.
      destruct (try_except_ok_inv _ _ _ H) as [Hb | (rc & cmd & out & err & _ & Hf)];
        [|discriminate Hf].
      destruct (encode_ok_inv _ _ _ _ _ _ _ _ Hb)
        as [[_ (c & Ec & Zc & Ex)] | (n' & o' & m' & w' & d' & Hs)];
        [|discriminate Hs].
      exists info, n, b, c.
      split; [exact He|]. split; [exact Ec|]. split; [exact Zc|].
      split; [exact Ex|].
      rewrite Et. unfold encode. rewrite Ec. run_step.
      rewrite (check_returncode_zero _ _ Zc). run_step. rewrite Ex. reflexivity.
  - intros (M1 & M2 & [Hp | (info & n & b & c & He & Ec & Zc & Ex & _)]).
    + unfold process_video. rewrite M1, M2. run_step.
      rewrite (get_video_info_outcome _ _ _ Hp). reflexivity.
    + destruct (process_video_split env f o info n b He) as [Eo _].
      rewrite Eo. unfold encode. rewrite Ec. run_step.
      rewrite (check_returncode_zero _ _ Zc). run_step. rewrite Ex. reflexivity.
Qed.

(** ** Further properties of the batch *)

Lemma executor_map_inv {A B} (f : A -> res B) (l : list A) (bs : list B) :
  executor_map f l = Ok bs -> Forall2 (fun a b => f a = Ok b) l bs.
Proof.
  revert bs. induction l as [|a rest IH]; simpl; intros bs H.
  - apply Ok_inj in H. subst. constructor.
  - destruct (f a) as [b|e] eqn:Ea; simpl in H; [|discriminate].
    destruct (executor_map f rest) as [bs'|e] eqn:Er; simpl in H; [|discriminate].
    apply Ok_inj in H. subst. constructor; [exact Ea | now apply IH].
Qed.

Lemma executor_map_raise_iff {A B} (f : A -> res B) (l : list A) (e : exn) :
  executor_map f l = Raise e <->
  exists l1 a l2,
    l = (l1 ++ a :: l2)%list /\
    Forall (fun x => exists b, f x = Ok b) l1 /\
    f a = Raise e.
Proof.
  split.
  - induction l as [|a rest IH]; simpl; [discriminate|].
    destruct (f a) as [b|e'] eqn:Ea; simpl.
    + destruct (executor_map f rest) as [bs|e''] eqn:Er; simpl; [discriminate|].
      intro H. injection H as ->.
      destruct (IH eq_refl) as (l1 & x & l2 & -> & F & Ex).
      exists (a :: l1), x, l2. repeat split; [|exact Ex].
      constructor; [now exists b | exact F].
    + intro H. injection H as ->. exists [], a, rest. repeat split; [constructor | exact Ea].
  - intros (l1 & a & l2 & -> & F & Ea).
    induction F as [|x l1' [b Ex] F IH]; simpl.
    + rewrite Ea. reflexivity.
    + rewrite Ex. simpl. rewrite IH. reflexivity.
Qed.

Lemma select_failed_in (rs : list (option TranscodeResult)) (r : TranscodeResult) :
  In r (select_failed rs) -> In (Some r) rs /\ result_success r = false.
Proof.
  induction rs as [|[x|] rest IH]; simpl; [tauto| |].
  - destruct (result_success x) eqn:E.
    + intro H. destruct (IH H); split; [now right | assumption].
    + intros [-> | H]; [split; [now left | exact E]|].
      destruct (IH H); split; [now right | assumption].
  - intro H. destruct (IH H); split; [now right | assumption].
Qed.

(** The ratios of the closing summary are always defined: a Success
    comes from a non-empty input file. *)
Lemma summary_ratios_defined (world : string -> Env) (o : string)
    (files : list string) (rs : list (option TranscodeResult)) :
  Forall2 (fun f r => outcome (process_video (f, o) (world f)) = Ok r) files rs ->
  select_successful rs <> [] ->
  (0 < sum_of original_size_of (select_successful rs))%Q.
Proof.
  intros F Hne. apply sum_of_positive; [exact Hne|].
  apply Forall_forall. intros r Hr.
  apply select_successful_in in Hr as [Hin Hs].
  destruct (Forall2_in_right _ _ _ _ F Hin) as [f [_ Ef]].
  destruct r as [name o' m' w' d'|]; [|discriminate].
  simpl. eapply process_video_success_size. exact Ef.
Qed.

(** What a returned report is made of. *)
Lemma batch_report_inv (world : string -> Env) (all_files : list string)
    (o : string) (report : BatchReport) :
  batch_process_videos world all_files o = Ok (Some report) ->
  filter is_supported all_files <> [] /\
  Forall2 (fun f r => outcome (process_video (f, o) (world f)) = Ok r)
    (filter is_supported all_files) (results report) /\
  successful report = select_successful (results report) /\
  failed report = select_failed (results report) /\
  unsupported_files report =
    filter (fun f => negb (existsb (String.eqb f) (filter is_supported all_files)))
      all_files /\
  max_workers report = Z.max 1 (cpu_count - 1) /\
  totals report =
    match successful report with
    | [] => None
    | _ :: _ => Some (sum_of original_size_of (successful report),
                      sum_of mp4_size_of (successful report),
                      sum_of webm_size_of (successful report))
    end.
Proof.
  unfold batch_process_videos.
  destruct (filter is_supported all_files) as [|v vs] eqn:Ev; [discriminate|].
  destruct (executor_map _ _) as [rs|e] eqn:Er; cbn [res_bind]; [|discriminate].
  apply executor_map_inv, Forall2_map_left in Er. cbn [fst] in Er.
  destruct (select_successful rs) as [|s ss] eqn:Es; cbn [res_bind].
  - intro H. apply Ok_inj in H. injection H as <-. cbn.
    rewrite Es. repeat split; try reflexivity; [discriminate | exact Er].
  - pose proof (summary_ratios_defined world o (v :: vs) rs Er) as Hpos.
    rewrite Es in Hpos. specialize (Hpos ltac:(discriminate)).
    rewrite !float_div_ok by (intro E; rewrite E in Hpos; discriminate Hpos).
    cbn [res_bind].
    intro H. apply Ok_inj in H. injection H as <-. cbn.
    rewrite Es. repeat split; try reflexivity; [discriminate | exact Er].
Qed.

Lemma not_in_supported (l : list string) (f : string) :
  In f l ->
  negb (existsb (String.eqb f) (filter is_supported l)) = negb (is_supported f).
Proof.
  intro Hin. f_equal.
  destruct (is_supported f) eqn:Es.
  - apply existsb_exists. exists f. split; [|apply String.eqb_refl].
    apply filter_In. now split.
  - destruct (existsb _ _) eqn:Ex; [|reflexivity].
    apply existsb_exists in Ex as [g [Hg Eg]].
    apply String.eqb_eq in Eg. subst g.
    apply filter_In in Hg as [_ Hs]. congruence.
Qed.

(** X14.  The classifier splits the directory listing in two: the files
    of the report's ignored list are exactly the listed files that are not
    supported, every listed file is either dispatched (one result) or
    ignored, and none is both. *)
Theorem classifier_partition (world : string -> Env) (all_files : list string)
    (o : string) (report : BatchReport) :
  batch_process_videos world all_files o = Ok (Some report) ->
  unsupported_files report = filter (fun f => negb (is_supported f)) all_files /\
  (length (results report) + length (unsupported_files report)
   = length all_files)%nat /\
  (forall f, In f all_files ->
     (In f (unsupported_files report) <-> is_supported f = false) /\
     (In f (filter is_supported all_files) <-> is_supported f = true)).
Proof.
  intro H.
  destruct (batch_report_inv _ _ _ _ H) as (_ & F & _ & _ & Eu & _).
  assert (Eu' : unsupported_files report
                = filter (fun f => negb (is_supported f)) all_files).
  { rewrite Eu. apply filter_ext_in. intros f Hf. now apply not_in_supported. }
  split; [exact Eu'|]. split.
  - rewrite <- (Forall2_length F), Eu'. apply filter_length.
  - intros f Hf. rewrite Eu', !filter_In. split.
    + split; [intros [_ Hs]; now apply negb_true_iff in Hs|].
      intro Hs. split; [exact Hf | now apply negb_true_iff].
    + split; [now intros [_ Hs] | now split].
Qed.

Lemma executor_map_map {A B C} (g : A -> B) (f : B -> res C) (l : list A) :
  executor_map f (map g l) = executor_map (fun x => f (g x)) l.
Proof.
  induction l as [|a rest IH]; simpl; [reflexivity|]. now rewrite IH.
Qed.

(** Once every dispatched call has returned, the batch returns the
    report of these results. *)
Lemma batch_returns (world : string -> Env) (all_files : list string) (o : string)
    (rs : list (option TranscodeResult)) :
  filter is_supported all_files <> [] ->
  executor_map (fun f => outcome (process_video (f, o) (world f)))
    (filter is_supported all_files) = Ok rs ->
  exists report,
    batch_process_videos world all_files o = Ok (Some report) /\
    results report = rs.
Proof.
  intros Hne Er. pose proof (executor_map_inv _ _ _ Er) as F.
  unfold batch_process_videos.
  destruct (filter is_supported all_files) as [|v vs] eqn:Ev; [contradiction|].
  rewrite executor_map_map. cbn [fst]. rewrite Er. cbn [res_bind].
  destruct (select_successful rs) as [|s ss] eqn:Es; cbn [res_bind].
  - eexists. split; reflexivity.
  - pose proof (summary_ratios_defined world o (v :: vs) rs F) as Hpos.
    rewrite Es in Hpos. specialize (Hpos ltac:(discriminate)).
    rewrite !float_div_ok by (intro E; rewrite E in Hpos; discriminate Hpos).
    cbn [res_bind]. eexists. split; reflexivity.
Qed.

Lemma Forall2_map_right {A B C} (g : C -> B) (P : A -> B -> Prop)
    (l : list A) (cs : list C) :
  Forall2 P l (map g cs) -> Forall2 (fun a c => P a (g c)) l cs.
Proof.
  revert l. induction cs as [|c rest IH]; intros l H; inversion H; subst.
  - constructor.
  - constructor; [assumption | now apply IH].
Qed.

Lemma all_success_selected (rs : list (option TranscodeResult)) :
  Forall (fun r => exists s, r = Some s /\ result_success s = true) rs ->
  rs = map Some (select_successful rs) /\ select_failed rs = [].
Proof.
  induction 1 as [|r rest (s & Er & Hs) F [IH1 IH2]]; [now split|].
  subst r. simpl.
  rewrite Hs. simpl. split; [f_equal; exact IH1 | exact IH2].
Qed.

(** X15.  When every dispatched asset returns a Success record, the batch
    reports as many successes as there are supported files, in dispatch
    order, no failure, and as totals the sums of the three sizes over the
    records. *)
Theorem batch_all_success (world : string -> Env) (all_files : list string)
    (o : string) :
  let video_files := filter is_supported all_files in
  video_files <> [] ->
  (forall f, In f video_files ->
     exists name osz msz wsz d,
       outcome (process_video (f, o) (world f))
       = Ok (Some (Success name osz msz wsz d))) ->
  exists report,
    batch_process_videos world all_files o = Ok (Some report) /\
    results report = map Some (successful report) /\
    Forall2 (fun f s => outcome (process_video (f, o) (world f)) = Ok (Some s))
      video_files (successful report) /\
    failed report = [] /\
    totals report = Some (sum_of original_size_of (successful report),
                          sum_of mp4_size_of (successful report),
                          sum_of webm_size_of (successful report)).
Proof.
  intros video_files Hne Hall.
  destruct (executor_map_ok
              (fun f => outcome (process_video (f, o) (world f))) video_files)
    as [rs [Ers F]].
  { intros f Hf. destruct (Hall f Hf) as (n & a & b & c & d & E). eexists. exact E. }
  destruct (batch_returns world all_files o rs Hne Ers) as [report [Eb Er]].
  exists report. split; [exact Eb|].
  destruct (batch_report_inv _ _ _ _ Eb) as (_ & _ & Es & Ef & _ & _ & Et).
  assert (Hrs : Forall (fun r => exists s, r = Some s /\ result_success s = true) rs).
  { apply Forall_forall. intros r Hr.
    destruct (Forall2_in_right _ _ _ _ F Hr) as [f [Hf Ef']].
    destruct (Hall f Hf) as (n & a & b & c & d & E).
    rewrite E in Ef'. apply Ok_inj in Ef'. subst r. eexists. split; reflexivity. }
  destruct (all_success_selected rs Hrs) as [Hmap Hfail].
  rewrite Ef, Es, Er. split; [exact Hmap|]. split.
  - rewrite Hmap in F. apply Forall2_map_right in F. exact F.
  - split; [exact Hfail|].
    rewrite Et, Es, Er.
    destruct (select_successful rs) as [|s ss] eqn:E; [|reflexivity].
    exfalso. destruct rs; [|discriminate Hmap].
    inversion F as [E0|]. fold video_files in Hne. congruence.
Qed.

(** X16.  The batch raises exactly when a dispatched asset raises: then
    it raises the exception of the first such asset in dispatch order, and
    no report is produced, whatever the other assets returned. *)
Theorem batch_raises_iff (world : string -> Env) (all_files : list string)
    (o : string) (e : exn) :
  batch_process_videos world all_files o = Raise e <->
  exists before f after,
    filter is_supported all_files = (before ++ f :: after)%list /\
    Forall (fun g => exists r, outcome (process_video (g, o) (world g)) = Ok r)
      before /\
    outcome (process_video (f, o) (world f)) = Raise e.
Proof.
  rewrite <- (executor_map_raise_iff
                (fun f => outcome (process_video (f, o) (world f)))).
  destruct (executor_map (fun f => outcome (process_video (f, o) (world f)))
              (filter is_supported all_files)) as [rs|e'] eqn:Er.
  - split; [|discriminate]. intro H.
    destruct (filter is_supported all_files) as [|v vs] eqn:Ev.
    + unfold batch_process_videos in H. rewrite Ev in H. discriminate H.
    + destruct (batch_returns world all_files o rs) as [report [Eb _]].
      * rewrite Ev. discriminate.
      * rewrite Ev. exact Er.
      * rewrite Eb in H. discriminate H.
  - unfold batch_process_videos.
    destruct (filter is_supported all_files) as [|v vs] eqn:Ev;
      [discriminate Er|].
    rewrite executor_map_map. cbn [fst]. rewrite Er. cbn [res_bind].
    split; intro E0; injection E0 as ->; reflexivity.
Qed.

(** X17.  The batch stops at "nothing to do", before dispatching
    anything, exactly when the listing holds no supported file; this
    includes the empty directory. *)
Theorem batch_nothing_to_do_iff (world : string -> Env) (all_files : list string)
    (o : string) :
  (batch_process_videos world all_files o = Ok None <->
   filter is_supported all_files = []) /\
  batch_process_videos world [] o = Ok None.
Proof.
  split; [|reflexivity]. split.
  - intro H. destruct (filter is_supported all_files) as [|v vs] eqn:Ev;
      [reflexivity|]. exfalso.
    destruct (executor_map (fun f => outcome (process_video (f, o) (world f)))
                (filter is_supported all_files)) as [rs|e'] eqn:Er.
    + destruct (batch_returns world all_files o rs) as [report [Eb _]].
      * rewrite Ev. discriminate.
      * exact Er.
      * rewrite Eb in H. discriminate H.
    + revert H. unfold batch_process_videos. rewrite Ev in *.
      rewrite executor_map_map. cbn [fst]. rewrite Er. discriminate.
  - intro Ev. unfold batch_process_videos. rewrite Ev. reflexivity.
Qed.

(** X18.  In a returned report the successes are Success records and the
    failures Failure records, each record of the result list is in
    exactly one of the two, the totals are absent exactly when there is no
    success, and a total original size that is present is positive (so
    the two ratios of the summary are defined). *)
Theorem report_consistent (world : string -> Env) (all_files : list string)
    (o : string) (report : BatchReport) :
  batch_process_videos world all_files o = Ok (Some report) ->
  Forall (fun r => result_success r = true) (successful report) /\
  Forall (fun r => result_success r = false) (failed report) /\
  (forall r, In (Some r) (results report) <->
             In r (successful report) \/ In r (failed report)) /\
  (totals report = None <-> successful report = []) /\
  (forall a b c, totals report = Some (a, b, c) ->
     (0 < a)%Q /\
     a = sum_of original_size_of (successful report) /\
     b = sum_of mp4_size_of (successful report) /\
     c = sum_of webm_size_of (successful report)).
Proof.
  intro H.
  destruct (batch_report_inv _ _ _ _ H) as (_ & F & Es & Ef & _ & _ & Et).
  split; [|split; [|split; [|split]]].
  - rewrite Es. apply Forall_forall. intros r Hr.
    now apply select_successful_in in Hr.
  - rewrite Ef. apply Forall_forall. intros r Hr.
    now apply select_failed_in in Hr.
  - intro r. rewrite Es, Ef. split.
    + generalize (results report). intro rs.
      induction rs as [|[x|] rest IH]; simpl; [tauto| |].
      * intros [E | Hin].
        -- injection E as ->. destruct (result_success r); simpl; tauto.
        -- destruct (IH Hin); destruct (result_success x); simpl; tauto.
      * intros [E | Hin]; [discriminate|]. now apply IH.
    + intros [Hr | Hr].
      * now apply select_successful_in in Hr.
      * now apply select_failed_in in Hr.
  - rewrite Et. destruct (successful report); split; intro; congruence.
  - intros a b c Ht. rewrite Et in Ht.
    assert (Hne : successful report <> [])
      by (intro E; rewrite E in Ht; discriminate Ht).
    assert (Hpos : (0 < sum_of original_size_of (successful report))%Q).
    { rewrite Es. eapply summary_ratios_defined; [exact F|]. now rewrite <- Es. }
    destruct (successful report) as [|s ss]; [contradiction|].
    assert (Ea : a = sum_of original_size_of (s :: ss)) by congruence.
    assert (Eb : b = sum_of mp4_size_of (s :: ss)) by congruence.
    assert (Ec : c = sum_of webm_size_of (s :: ss)) by congruence.
    subst a. repeat split; assumption.
Qed.

(** X19.  Whatever the host reports as its number of CPUs, also 1, 0 or
    less, the pool has at least one worker and each encoder at least one
    thread, and an encoder never gets more threads than the pool has
    workers; from 2 CPUs on they are [cpu_count - 1] and [cpu_count // 2]. *)
Theorem worker_counts (world : string -> Env) (all_files : list string)
    (o : string) (report : BatchReport) :
  batch_process_videos world all_files o = Ok (Some report) ->
  1 <= ffmpeg_threads <= max_workers report /\
  (cpu_count <= 2 -> max_workers report = 1 /\ ffmpeg_threads = 1) /\
  (2 <= cpu_count ->
     max_workers report = cpu_count - 1 /\ ffmpeg_threads = cpu_count / 2).
Proof.
  intro H.
  destruct (batch_report_inv _ _ _ _ H) as (_ & _ & _ & _ & _ & -> & _).
  unfold ffmpeg_threads.
  repeat split; intros; Z.div_mod_to_equations; lia.
Qed.

(** ** The output paths *)

Lemma splitroot_0 (c : ascii) (r : string) :
  c <> "/"%char -> PosixPath.splitroot (String c r) = ("", String c r).
Proof.
  intro H. unfold PosixPath.splitroot.
  destruct c as [[] [] [] [] [] [] [] []]; try reflexivity. contradiction.
Qed.

Lemma splitroot_1 (c : ascii) (r : string) :
  c <> "/"%char ->
  PosixPath.splitroot (String "/" (String c r)) = ("/", String c r).
Proof.
  intro H. unfold PosixPath.splitroot.
  destruct c as [[] [] [] [] [] [] [] []]; try reflexivity. contradiction.
Qed.

Lemma splitroot_2 (c : ascii) (r : string) :
  c <> "/"%char ->
  PosixPath.splitroot (String "/" (String "/" (String c r))) = ("//", String c r).
Proof.
  intro H. unfold PosixPath.splitroot.
  destruct c as [[] [] [] [] [] [] [] []]; try reflexivity. contradiction.
Qed.

(** Appending a text that does not begin with a slash keeps the root. *)
Lemma splitroot_app (p t : string) :
  p <> "" -> Py.startswith "/" t = false ->
  PosixPath.splitroot (p ++ t) =
  (fst (PosixPath.splitroot p), snd (PosixPath.splitroot p) ++ t).
Proof.
  intros Hp Ht.
  destruct p as [|c1 p1]; [contradiction|].
  destruct (Ascii.eqb_spec c1 "/") as [->|N1];
    [|cbn [append]; rewrite !splitroot_0 by exact N1; reflexivity].
  destruct p1 as [|c2 p2].
  { destruct t as [|x t']; [reflexivity|].
    cbn [Py.startswith] in Ht. cbn [append].
    rewrite splitroot_1; [reflexivity|].
    intros ->. discriminate Ht. }
  destruct (Ascii.eqb_spec c2 "/") as [->|N2];
    [|cbn [append]; rewrite !splitroot_1 by exact N2; reflexivity].
  destruct p2 as [|c3 p3].
  { destruct t as [|x t']; [reflexivity|].
    cbn [Py.startswith] in Ht. cbn [append].
    rewrite splitroot_2; [reflexivity|].
    intros ->. discriminate Ht. }
  destruct (Ascii.eqb_spec c3 "/") as [->|N3];
    [reflexivity | cbn [append]; rewrite !splitroot_2 by exact N3; reflexivity].
Qed.

Lemma endswith_cons (c x : ascii) (r : string) :
  r <> "" -> Py.endswith c (String x r) = Py.endswith c r.
Proof. destruct r; [contradiction | reflexivity]. Qed.

(** Appending anything to a path that does not end in a slash keeps the
    root. *)
Lemma splitroot_app_open (p t : string) :
  p <> "" -> Py.endswith "/" p = false ->
  PosixPath.splitroot (p ++ t) =
  (fst (PosixPath.splitroot p), snd (PosixPath.splitroot p) ++ t).
Proof.
  intros Hp He.
  destruct p as [|c1 p1]; [contradiction|].
  destruct (Ascii.eqb_spec c1 "/") as [->|N1];
    [|cbn [append]; rewrite !splitroot_0 by exact N1; reflexivity].
  destruct p1 as [|c2 p2]; [discriminate He|].
  destruct (Ascii.eqb_spec c2 "/") as [->|N2];
    [|cbn [append]; rewrite !splitroot_1 by exact N2; reflexivity].
  destruct p2 as [|c3 p3]; [discriminate He|].
  destruct (Ascii.eqb_spec c3 "/") as [->|N3];
    [reflexivity | cbn [append]; rewrite !splitroot_2 by exact N3; reflexivity].
Qed.

(** The part after the root of a path that ends in a slash is empty or
    ends in a slash too. *)
Lemma splitroot_rel_closed (p : string) :
  Py.endswith "/" p = true ->
  snd (PosixPath.splitroot p) = "" \/
  Py.endswith "/" (snd (PosixPath.splitroot p)) = true.
Proof.
  intro He.
  destruct p as [|c1 p1]; [discriminate He|].
  destruct (Ascii.eqb_spec c1 "/") as [->|N1];
    [|rewrite splitroot_0 by exact N1; now right].
  destruct p1 as [|c2 p2]; [now left|].
  rewrite endswith_cons in He by discriminate.
  destruct (Ascii.eqb_spec c2 "/") as [->|N2];
    [|rewrite splitroot_1 by exact N2; now right].
  destruct p2 as [|c3 p3]; [now left|].
  rewrite endswith_cons in He by discriminate.
  destruct (Ascii.eqb_spec c3 "/") as [->|N3].
  - right. cbn [PosixPath.splitroot snd].
    rewrite endswith_cons by discriminate.
    destruct p3 as [|c4 p4]; [reflexivity|].
    rewrite endswith_cons by discriminate. exact He.
  - rewrite splitroot_2 by exact N3. now right.
Qed.

Lemma split_nonempty (sep : ascii) (s : string) : Py.split sep s <> [].
Proof.
  destruct s as [|c r]; simpl; [discriminate|].
  destruct (Ascii.eqb c sep); [discriminate|].
  destruct (Py.split sep r); discriminate.
Qed.

Lemma split_app_sep (sep : ascii) (a b : string) :
  Py.split sep (a ++ String sep b) = (Py.split sep a ++ Py.split sep b)%list.
Proof.
  induction a as [|c r IH]; simpl.
  - rewrite Ascii.eqb_refl. reflexivity.
  - destruct (Ascii.eqb c sep); [now rewrite IH|].
    rewrite IH. pose proof (split_nonempty sep r) as Hne.
    destruct (Py.split sep r) as [|h t]; [contradiction|]. reflexivity.
Qed.

Lemma endswith_inv (c : ascii) (s : string) :
  Py.endswith c s = true -> exists s', s = s' ++ String c "".
Proof.
  induction s as [|x r IH]; [discriminate|].
  destruct r as [|y r'].
  - simpl. intro H. apply Ascii.eqb_eq in H. subst. now exists "".
  - rewrite endswith_cons by discriminate. intro H.
    destruct (IH H) as [s' E]. exists (String x s'). simpl. now rewrite E.
Qed.

Lemma app_assoc_str (a b c : string) : (a ++ b) ++ c = a ++ (b ++ c).
Proof. induction a as [|x r IH]; simpl; [reflexivity | now rewrite IH]. Qed.

Lemma one_component_facts (s : string) :
  one_component s = true ->
  s <> "" /\ PosixPath.keep_part s = true /\ no_slash s = true /\
  Py.startswith "/" s = false /\ Py.split "/" s = [s].
Proof.
  unfold one_component. intro H. apply andb_true_iff in H as [Hk Hs].
  assert (Hne : s <> "").
  { intros ->. discriminate Hk. }
  repeat split; try assumption.
  - destruct s as [|c r]; [reflexivity|]. simpl.
    unfold no_slash in Hs. simpl in Hs.
    apply andb_true_iff in Hs as [Hc _]. now apply negb_true_iff in Hc.
  - now apply split_no_sep.
Qed.

Lemma parts_snoc_open (a s : string) :
  one_component s = true ->
  filter PosixPath.keep_part (Py.split "/" (a ++ String "/" s)) =
  (filter PosixPath.keep_part (Py.split "/" a) ++ [s])%list.
Proof.
  intro H. destruct (one_component_facts s H) as (_ & Hk & _ & _ & Hsplit).
  rewrite split_app_sep, filter_app, Hsplit. simpl. now rewrite Hk.
Qed.

Lemma parts_snoc_closed (a s : string) :
  a = "" \/ Py.endswith "/" a = true ->
  one_component s = true ->
  filter PosixPath.keep_part (Py.split "/" (a ++ s)) =
  (filter PosixPath.keep_part (Py.split "/" a) ++ [s])%list.
Proof.
  intros Ha H. destruct (one_component_facts s H) as (_ & Hk & _ & _ & Hsplit).
  destruct Ha as [-> | He].
  - simpl. rewrite Hsplit. simpl. now rewrite Hk.
  - destruct (endswith_inv _ _ He) as [a' ->].
    rewrite app_assoc_str. cbn [append].
    rewrite !split_app_sep, !filter_app, Hsplit. simpl. rewrite Hk.
    now rewrite app_nil_r.
Qed.

Lemma str_app_nil (a b : string) : a ++ b = "" -> a = "".
Proof. destruct a; [reflexivity | discriminate]. Qed.

(** Joining one more component onto a path adds it to the parts and
    leaves the root alone. *)
Lemma parse_snoc (raw : PosixPath.t) (seg : string) :
  raw <> [] -> one_component seg = true ->
  PosixPath.parse (PosixPath.joinpath raw seg) =
  (fst (PosixPath.parse raw), (snd (PosixPath.parse raw) ++ [seg])%list).
Proof.
  intros Hraw H.
  destruct (one_component_facts seg H) as (Hne & Hk & Hns & Hst & Hsplit).
  unfold PosixPath.parse, PosixPath.joinpath.
  assert (Ej : PosixPath.join (raw ++ [seg])%list =
               PosixPath.join_step (PosixPath.join raw) seg).
  { destruct raw as [|a p]; [contradiction|].
    unfold PosixPath.join. cbn [app]. now rewrite fold_left_app. }
  rewrite Ej. set (p := PosixPath.join raw).
  unfold PosixPath.join_step. rewrite Hst.
  destruct (String.eqb_spec p "") as [Ep | Np].
  - rewrite Ep. cbn [orb append].
    destruct (String.eqb_spec seg "") as [E|_]; [contradiction|].
    destruct seg as [|c r]; [contradiction|].
    assert (Hc : c <> "/"%char).
    { intros ->. discriminate Hst. }
    rewrite splitroot_0 by exact Hc. rewrite Hsplit. cbn [filter].
    rewrite Hk. reflexivity.
  - cbn [orb].
    destruct (Py.endswith "/" p) eqn:He.
    + destruct (String.eqb_spec (p ++ seg) "") as [E|_];
        [apply str_app_nil in E; contradiction|].
      rewrite (splitroot_app p seg Np Hst).
      destruct (PosixPath.splitroot p) as [root rel] eqn:Er. cbn [fst snd].
      rewrite parts_snoc_closed; [reflexivity| |exact H].
      pose proof (splitroot_rel_closed p He) as Hrel. rewrite Er in Hrel.
      exact Hrel.
    + destruct (String.eqb_spec (p ++ "/" ++ seg) "") as [E|_];
        [apply str_app_nil in E; contradiction|].
      rewrite (splitroot_app_open p _ Np He).
      destruct (PosixPath.splitroot p) as [root rel] eqn:Er. cbn [fst snd].
      cbn [append]. rewrite parts_snoc_open by exact H. reflexivity.
Qed.

Lemma concat_snoc2 (parts : list string) (a b : string) :
  String.concat "/" (parts ++ [a; b]) =
  String.concat "" (map (fun part => part ++ "/") parts) ++ a ++ "/" ++ b.
Proof.
  induction parts as [|p rest IH]; [reflexivity|].
  cbn [app map]. change (String.concat "" (?x :: ?l)) with
    (match l with [] => x | _ => x ++ "" ++ String.concat "" l end).
  simpl String.concat at 1.
  destruct (rest ++ [a; b])%list as [|y ys] eqn:E;
    [destruct rest; discriminate E|].
  rewrite IH.
  destruct (map (fun part => part ++ "/") rest) as [|z zs] eqn:Em.
  - simpl. now rewrite !app_assoc_str.
  - cbn [append]. now rewrite !app_assoc_str.
Qed.

Lemma str_forall_app (p : ascii -> bool) (a b : string) :
  Py.str_forall p (a ++ b) = Py.str_forall p a && Py.str_forall p b.
Proof.
  induction a as [|c r IH]; simpl; [reflexivity|].
  rewrite IH. now rewrite andb_assoc.
Qed.

Lemma normalize_normal (f : string) :
  Py.str_forall normal_chr (normalize f) = true.
Proof. apply format_filename_normal. Qed.

(** A formatted name with an extension is one path component. *)
Lemma output_name_component (x ext : string) :
  Py.str_forall normal_chr x = true ->
  one_component ext = true -> ext <> "." ->
  one_component (x ++ ext) = true.
Proof.
  intros Hx He Hdot.
  destruct (one_component_facts ext He) as (Hne & _ & Hns & _ & _).
  unfold one_component, no_slash. rewrite str_forall_app.
  fold (no_slash ext). rewrite Hns, andb_true_r.
  apply andb_true_iff. split.
  - destruct x as [|c r]; [apply andb_true_iff in He as [Hk _]; exact Hk|].
    simpl in Hx. apply andb_true_iff in Hx as [Hc _].
    unfold normal_chr in Hc. repeat (apply andb_true_iff in Hc as [Hc ?]).
    unfold PosixPath.keep_part. cbn [append].
    match goal with E : negb (Ascii.eqb c ".") = true |- _ =>
      apply negb_true_iff in E end.
    apply andb_true_iff. split; [reflexivity|].
    apply negb_true_iff. apply String.eqb_neq. intro E.
    injection E as -> _. discriminate.
  - apply (str_forall_weaken normal_chr); [|exact Hx].
    intros c Hc. unfold normal_chr in Hc.
    repeat (apply andb_true_iff in Hc as [Hc ?]). assumption.
Qed.

Lemma str_app_nonempty (a b : string) : b <> "" -> a ++ b <> "".
Proof. intros Hb E. destruct a; [contradiction | discriminate]. Qed.

(** Where a file joined as [Path(output_dir) / d / nm] lands. *)
Lemma output_path_shape (o d nm : string) :
  one_component d = true -> one_component nm = true ->
  PosixPath.to_str
    (PosixPath.joinpath (PosixPath.joinpath (PosixPath.Path o) d) nm)
  = output_prefix o ++ d ++ "/" ++ nm.
Proof.
  intros Hd Hnm. unfold PosixPath.to_str, output_prefix.
  rewrite parse_snoc; [|unfold PosixPath.joinpath, PosixPath.Path; discriminate|exact Hnm].
  rewrite parse_snoc; [|unfold PosixPath.Path; discriminate|exact Hd].
  destruct (PosixPath.parse (PosixPath.Path o)) as [root parts]. cbn [fst snd].
  rewrite <- app_assoc. cbn [app].
  rewrite concat_snoc2.
  destruct (one_component_facts d Hd) as (Hne & _).
  destruct (String.eqb_spec
              (root ++ String.concat "" (map (fun part => part ++ "/") parts)
               ++ d ++ "/" ++ nm) "") as [E|_].
  - exfalso. revert E. apply str_app_nonempty, str_app_nonempty.
    destruct d; [contradiction | discriminate].
  - now rewrite !app_assoc_str.
Qed.

Lemma output_paths_shape (input_file output_dir : string) :
  mp4_output_of input_file output_dir
    = output_prefix output_dir ++ "mp4/" ++ normalize input_file ++ ".mp4" /\
  webm_output_of input_file output_dir
    = output_prefix output_dir ++ "webm/" ++ normalize input_file ++ ".webm".
Proof.
  unfold mp4_output_of, webm_output_of. split.
  - rewrite output_path_shape; [reflexivity | reflexivity |].
    apply output_name_component;
      [apply normalize_normal | reflexivity | discriminate].
  - rewrite output_path_shape; [reflexivity | reflexivity |].
    apply output_name_component;
      [apply normalize_normal | reflexivity | discriminate].
Qed.

(** X20.  The two outputs of an input file are
    [<output_dir>/mp4/<name>.mp4] and [<output_dir>/webm/<name>.webm],
    where the directory part comes from the output directory alone and
    [<name>] is the formatted stem: the directory and the extension of
    the input file leave no trace in the output paths. *)
Theorem output_paths (input_file output_dir : string) :
  mp4_output_of input_file output_dir
    = output_prefix output_dir ++ "mp4/" ++ normalize input_file ++ ".mp4" /\
  webm_output_of input_file output_dir
    = output_prefix output_dir ++ "webm/" ++ normalize input_file ++ ".webm".
Proof.
  unfold mp4_output_of, webm_output_of.
  assert (Hmp4 : one_component (normalize input_file ++ ".mp4") = true)
    by (apply output_name_component;
        [apply normalize_normal | reflexivity | discriminate]).
  assert (Hwebm : one_component (normalize input_file ++ ".webm") = true)
    by (apply output_name_component;
        [apply normalize_normal | reflexivity | discriminate]).
  rewrite (output_path_shape output_dir "mp4" _ eq_refl Hmp4).
  rewrite (output_path_shape output_dir "webm" _ eq_refl Hwebm).
  split; reflexivity.
Qed.

Lemma str_app_inv_head (a b c : string) : a ++ b = a ++ c -> b = c.
Proof.
  induction a as [|x r IH]; simpl; [auto|]. intro H. injection H as H. auto.
Qed.

Lemma str_app_length (a b : string) :
  String.length (a ++ b) = (String.length a + String.length b)%nat.
Proof. induction a as [|x r IH]; simpl; [reflexivity | now rewrite IH]. Qed.

Lemma str_app_inv_tail (a b e : string) : a ++ e = b ++ e -> a = b.
Proof.
  revert b. induction a as [|x r IH]; intros b H.
  - destruct b as [|y s]; [reflexivity|]. exfalso.
    apply (f_equal String.length) in H. cbn [append] in H.
    simpl String.length in H. rewrite str_app_length in H. lia.
  - destruct b as [|y s].
    + exfalso. apply (f_equal String.length) in H. cbn [append] in H.
      simpl String.length in H. rewrite str_app_length in H. lia.
    + cbn [append] in H. injection H as -> H. f_equal. now apply IH.
Qed.

(** X21.  Two input files write the same MP4 (or the same WebM) exactly
    when their formatted stems coincide: nothing else tells their outputs
    apart, so such inputs overwrite each other.  An MP4 output and a WebM
    output never coincide. *)
Theorem output_collisions (f1 f2 output_dir : string) :
  (mp4_output_of f1 output_dir = mp4_output_of f2 output_dir
   <-> normalize f1 = normalize f2) /\
  (webm_output_of f1 output_dir = webm_output_of f2 output_dir
   <-> normalize f1 = normalize f2) /\
  mp4_output_of f1 output_dir <> webm_output_of f2 output_dir.
Proof.
  destruct (output_paths_shape f1 output_dir) as [M1 W1].
  destruct (output_paths_shape f2 output_dir) as [M2 W2].
  rewrite M1, M2, W1, W2. split; [|split].
  - split; [|now intros ->]. intro H.
    apply str_app_inv_head, str_app_inv_head in H.
    now apply str_app_inv_tail in H.
  - split; [|now intros ->]. intro H.
    apply str_app_inv_head, str_app_inv_head in H.
    now apply str_app_inv_tail in H.
  - intro H. apply str_app_inv_head in H. discriminate H.
Qed.

(** ** What leaves a run as an exception *)

Lemma try_except_raise_iff (body : M (option TranscodeResult)) (name : string)
    (e : exn) :
  outcome (try_except_CalledProcessError body (failure_handler name)) = Raise e <->
  outcome body = Raise e /\ forall rc cmd out err, e <> CalledProcessError rc cmd out err.
Proof.
  destruct body as [[a|e'] t]; cbn.
  - split; [discriminate | intros [H _]; discriminate H].
  - destruct e'; cbn; split;
      try (intro H; injection H as <-; split; [reflexivity | intros; discriminate]);
      try (intros [H _]; exact H);
      try discriminate.
    intros [H Hn]. injection H as <-. exfalso. eapply Hn. reflexivity.
Qed.

(** X22.  Inside the [try] block only CalledProcessError is handled: a
    run that got that far raises [e] exactly when the block raises [e] and
    [e] is of another class (the OSError of a missing ffmpeg or of a
    missing output file, the ZeroDivisionError of the report); the
    subprocesses started so far stay in the trace. *)
Theorem other_errors_propagate (env : Env) (f o : string)
    (info : VideoInfo) (n : N) (b : Z) (e : exn) :
  reaches_encode env f info n b ->
  (outcome (process_video (f, o) env) = Raise e <->
   outcome (encode env f o (normalize f) (size_mb n) (duration info) b) = Raise e /\
   forall rc cmd out err, e <> CalledProcessError rc cmd out err) /\
  trace (process_video (f, o) env) =
    Run Ffprobe (ffprobe_cmd f) ::
    trace (encode env f o (normalize f) (size_mb n) (duration info) b).
Proof.
  intro He. destruct (process_video_split env f o info n b He) as [Eo Et].
  split; [|exact Et]. rewrite Eo. apply try_except_raise_iff.
Qed.

(** X23.  An input file of 0 bytes that gets through the probe and both
    first passes makes the run raise ZeroDivisionError where the report
    divides by the input size: after the WebM pass, before the comparison,
    so that neither a result nor a retry follows. *)
Theorem empty_input_raises (env : Env) (f o : string)
    (info : VideoInfo) (b : Z) (r1 r2 : CompletedProcess) (m w : N) :
  reaches_encode env f info 0%N b ->
  mp4_run env = Ok r1 -> returncode r1 = 0 -> mp4_exists env = true ->
  webm_run env = Ok r2 -> returncode r2 = 0 ->
  mp4_getsize env = Ok m -> webm_getsize env = Ok w ->
  process_video (f, o) env =
  (Raise ZeroDivisionError, firstn 3 (full_trace f o b)).
Proof.
  intros He E1 Z1 Ex E2 Z2 Em Ew.
  rewrite (process_video_encode _ _ _ _ _ _ He).
  unfold encode, get_video_size_mb.
  rewrite E1. run_step. rewrite (check_returncode_zero _ _ Z1). run_step.
  rewrite Ex, E2. run_step. rewrite (check_returncode_zero _ _ Z2). run_step.
  rewrite Em, Ew. run_step. reflexivity.
Qed.


End Pipeline.

(* ================================================================== *)
(** * Part III: the properties on the sample host and worlds *)
(* ================================================================== *)

Local Abbreviation sample_process_video :=
  (process_video sample_cpu_count sample_signal_name
     sample_int_of_str sample_float_of_str).
Local Abbreviation sample_batch :=
  (batch_process_videos sample_cpu_count sample_signal_name
     sample_int_of_str sample_float_of_str).
Local Abbreviation sample_reaches_encode :=
  (reaches_encode sample_int_of_str sample_float_of_str).
Local Abbreviation sample_reaches_comparison :=
  (reaches_comparison sample_int_of_str sample_float_of_str).

(** C1 as stated fails: the asset whose probe fails yields no record at
    all, and the batch of two files counts one success and no failure. *)
Lemma probe_failure_leaves_no_record :
  outcome (sample_process_video ("in/broken.mp4", "out") env_probe_fails) = Ok None /\
  exists report,
    sample_batch sample_world ["in/a.mp4"; "in/broken.mp4"] "out" = Ok (Some report) /\
    map (option_map result_success) (results report) = [Some true; None] /\
    length (successful report) = 1%nat /\
    failed report = [].
Proof.
  split; [reflexivity|]. eexists. split; [reflexivity|]. repeat split.
Qed.

Lemma batch_one_entry_per_asset_witness :
  exists report,
    sample_batch sample_world ["in/a.mp4"; "in/notes.txt"; "in/broken.mp4"] "out"
      = Ok (Some report) /\
    length (results report) = 2%nat /\
    (length (successful report) + length (failed report)
     + count_none (results report) = 2)%nat.
Proof.
  destruct (batch_one_entry_per_asset sample_cpu_count sample_signal_name
              sample_int_of_str sample_float_of_str sample_world
              ["in/a.mp4"; "in/notes.txt"; "in/broken.mp4"] "out")
    as [report (E & L & _ & P & _)].
  - vm_compute. discriminate.
  - intros f Hf. vm_compute in Hf.
    destruct Hf as [<- | [<- | []]]; eexists; vm_compute; reflexivity.
  - exists report. repeat split; assumption.
Defined.

(** [format_filename] on a whole file name keeps the letters of the
    extension; the pipeline applies it to the stem. *)
Example format_filename_of_file_name :
  format_filename "My Clip 01.MOV" = "my-clip-01mov".
Proof. reflexivity. Qed.

(** C2.  The code at the failing input: a probe answer without a duration
    gives the duration 0, the planner divides by it, and the
    ZeroDivisionError leaves [process_video] (after ffprobe, before any
    encoder) and then the batch. *)
Theorem zero_duration_raises :
  outcome (get_video_info sample_int_of_str sample_float_of_str
             env_no_duration "in/clip.mkv")
    = Ok (Some {| width := 1920; height := 1080; duration := inject_Z 0 |}) /\
  calculate_target_bitrate 0 = Raise ZeroDivisionError /\
  sample_process_video ("in/clip.mkv", "out") env_no_duration
    = (Raise ZeroDivisionError, [Run Ffprobe (ffprobe_cmd "in/clip.mkv")]) /\
  sample_batch (fun _ => env_no_duration) ["in/clip.mkv"] "out"
    = Raise ZeroDivisionError.
Proof. repeat split. Qed.

(** C3 as stated fails: with the ffmpeg executable missing, the OSError
    raised by [subprocess.run] inside the [try] block leaves
    [process_video]. *)
Lemma missing_encoder_escapes :
  outcome (sample_process_video ("in/My Clip 01.MOV", "out") env_no_ffmpeg)
    = Raise OSError /\
  ~ (forall env args, exists r, outcome (sample_process_video args env) = Ok r).
Proof.
  split; [reflexivity|]. intro H.
  destruct (H env_no_ffmpeg ("in/My Clip 01.MOV", "out")) as [r E].
  vm_compute in E. discriminate E.
Qed.

Lemma encoder_errors_become_failures_witness :
  sample_reaches_encode env_mp4_fails "in/My Clip 01.MOV" info_ten_seconds
    52428800 1677721 /\
  exists cmd,
    outcome (sample_process_video ("in/My Clip 01.MOV", "out") env_mp4_fails) =
    Ok (Some (Failure "my-clip-01"
                (CalledProcessError_str sample_signal_name 1 cmd))).
Proof.
  assert (Hreach :
    sample_reaches_encode env_mp4_fails "in/My Clip 01.MOV" info_ten_seconds
      52428800 1677721) by (repeat split; reflexivity).
  split; [exact Hreach|].
  destruct (encoder_errors_become_failures sample_cpu_count sample_signal_name
              sample_int_of_str sample_float_of_str env_mp4_fails
              "in/My Clip 01.MOV" "out" info_ten_seconds 52428800 1677721
              Hreach) as (_ & Hmp4 & _).
  apply (Hmp4 (completed 1 "Unknown encoder libx264")).
  - reflexivity.
  - simpl. lia.
Defined.



(** C6 as stated fails: the Failure record of a failed MP4 pass does not
    hold the text the encoder wrote on stderr. *)
Lemma mp4_failure_message_lacks_stderr :
  mp4_run env_mp4_fails = Ok (completed 1 "Unknown encoder libx264") /\
  exists msg,
    outcome (sample_process_video ("in/My Clip 01.MOV", "out") env_mp4_fails)
      = Ok (Some (Failure "my-clip-01" msg)) /\
    Py.contains "Unknown encoder libx264" msg = false.
Proof.
  split; [reflexivity|]. eexists. split; [reflexivity|]. vm_compute. reflexivity.
Qed.

Lemma mp4_failure_result_witness :
  sample_reaches_encode env_mp4_fails "in/My Clip 01.MOV" info_ten_seconds
    52428800 1677721 /\
  webm_encode_count
    (trace (sample_process_video ("in/My Clip 01.MOV", "out") env_mp4_fails))
    = 0%nat.
Proof.
  assert (Hreach :
    sample_reaches_encode env_mp4_fails "in/My Clip 01.MOV" info_ten_seconds
      52428800 1677721) by (repeat split; reflexivity).
  split; [exact Hreach|].
  apply (mp4_failure_result sample_cpu_count sample_signal_name
           sample_int_of_str sample_float_of_str env_mp4_fails
           "in/My Clip 01.MOV" "out" info_ten_seconds 52428800 1677721
           (completed 1 "Unknown encoder libx264")
           Hreach).
  - reflexivity.
  - simpl. lia.
Defined.


Lemma get_video_info_never_raises_witness :
  exists info,
    outcome (get_video_info sample_int_of_str sample_float_of_str
               env_no_duration "in/clip.mkv") = Ok (Some info) /\
    duration info = 0%Q.
Proof.
  destruct (get_video_info_never_raises sample_int_of_str sample_float_of_str
              env_no_duration "in/clip.mkv") as (_ & _ & _ & H).
  destruct (H [("programs", JList []);
               ("streams", JList [JDict [("width", JInt 1920); ("height", JInt 1080)]])]
              [("width", JInt 1920); ("height", JInt 1080)]
              eq_refl eq_refl) as [info (E & _ & _ & D)].
  - intros v Hv. vm_compute in Hv. injection Hv as <-. eexists. reflexivity.
  - intros v Hv. vm_compute in Hv. injection Hv as <-. eexists. reflexivity.
  - intros v Hv. vm_compute in Hv. discriminate Hv.
  - exists info. split; [exact E | apply D; reflexivity].
Defined.


(** ** Witnesses of the further properties *)




Lemma get_video_info_edges_witness :
  outcome (get_video_info sample_int_of_str sample_float_of_str
             env_no_streams "in/a.mp4")
  = Ok (Some {| width := 0; height := 0; duration := inject_Z 0 |}).
Proof.
  destruct (get_video_info_edges sample_int_of_str sample_float_of_str
              env_no_streams "in/a.mp4" [("programs", JList [])]) as (H & _).
  apply H; reflexivity.
Defined.

Lemma success_result_witness :
  sample_reaches_comparison env_webm_larger "in/My Clip 01.MOV" info_ten_seconds
    52428800 1677721 2097152 3145728 /\
  sample_process_video ("in/My Clip 01.MOV", "out") env_webm_larger =
  (Ok (Some (Success "my-clip-01" (size_mb 52428800) (size_mb 2097152)
               (size_mb 2621440) (duration info_ten_seconds))),
   full_trace sample_cpu_count "in/My Clip 01.MOV" "out" 1677721).
Proof.
  assert (Hreach :
    sample_reaches_comparison env_webm_larger "in/My Clip 01.MOV" info_ten_seconds
      52428800 1677721 2097152 3145728)
    by (repeat split; try discriminate;
        exists (completed 0 ""); split; reflexivity).
  split; [exact Hreach|].
  destruct (success_result sample_cpu_count sample_signal_name
              sample_int_of_str sample_float_of_str env_webm_larger
              "in/My Clip 01.MOV" "out" info_ten_seconds 52428800 1677721
              2097152 3145728 Hreach) as [_ H].
  apply (H (completed 0 "") 2621440%N); reflexivity.
Defined.

Lemma success_only_when_all_succeeded_witness :
  exists info n b m w,
    sample_reaches_comparison env_ok "in/My Clip 01.MOV" info n b m w /\
    (w <= m)%N.
Proof.
  destruct (success_only_when_all_succeeded sample_cpu_count sample_signal_name
              sample_int_of_str sample_float_of_str env_ok
              "in/My Clip 01.MOV" "out" "my-clip-01"
              (size_mb 52428800) (size_mb 2097152) (size_mb 1572864)
              (duration info_ten_seconds) ltac:(reflexivity))
    as (info & n & b & m & w & H & _ & _ & _ & _ & Hcase).
  exists info, n, b, m, w. split; [exact H|].
  destruct Hcase as [(Hle & _) | (Hlt & _ & w2 & _ & _ & Etr)]; [exact Hle|].
  exfalso. vm_compute in Etr. discriminate Etr.
Defined.

Lemma failure_only_from_encoder_error_witness :
  exists msg rc cmd,
    outcome (sample_process_video ("in/My Clip 01.MOV", "out") env_mp4_fails)
      = Ok (Some (Failure "my-clip-01" msg)) /\
    msg = CalledProcessError_str sample_signal_name rc cmd.
Proof.
  assert (E : exists msg,
    outcome (sample_process_video ("in/My Clip 01.MOV", "out") env_mp4_fails)
      = Ok (Some (Failure "my-clip-01" msg))) by (eexists; reflexivity).
  destruct E as [msg E].
  destruct (failure_only_from_encoder_error sample_cpu_count sample_signal_name
              sample_int_of_str sample_float_of_str env_mp4_fails
              "in/My Clip 01.MOV" "out" "my-clip-01" msg E)
    as (_ & info & n & b & rc & cmd & out & err & _ & _ & Hmsg & _).
  exists msg, rc, cmd. split; [exact E | exact Hmsg].
Defined.

Lemma none_result_iff_witness :
  outcome (sample_process_video ("in/broken.mp4", "out") env_probe_fails) = Ok None.
Proof.
  apply (none_result_iff sample_cpu_count sample_signal_name
           sample_int_of_str sample_float_of_str).
  split; [reflexivity|]. split; [reflexivity|]. left. reflexivity.
Defined.

Lemma classifier_partition_witness :
  exists report,
    sample_batch sample_world ["in/a.mp4"; "in/notes.txt"; "in/broken.mp4"] "out"
      = Ok (Some report) /\
    unsupported_files report = ["in/notes.txt"] /\
    (length (results report) + length (unsupported_files report) = 3)%nat.
Proof.
  assert (Hrep : exists report,
    sample_batch sample_world ["in/a.mp4"; "in/notes.txt"; "in/broken.mp4"] "out"
    = Ok (Some report)) by (eexists; reflexivity).
  destruct Hrep as [report H]. exists report.
  destruct (classifier_partition sample_cpu_count sample_signal_name
              sample_int_of_str sample_float_of_str _ _ _ report H)
    as (Eu & L & _).
  split; [exact H|]. split; [rewrite Eu; reflexivity | exact L].
Defined.

Lemma batch_all_success_witness :
  exists report,
    sample_batch (fun _ => env_ok) ["in/a.mp4"; "in/readme.txt"; "in/b.MOV"] "out"
      = Ok (Some report) /\
    length (successful report) = 2%nat /\
    failed report = [].
Proof.
  destruct (batch_all_success sample_cpu_count sample_signal_name
              sample_int_of_str sample_float_of_str (fun _ => env_ok)
              ["in/a.mp4"; "in/readme.txt"; "in/b.MOV"] "out")
    as [report (E & _ & F & Hf & _)].
  - vm_compute. discriminate.
  - intros f Hf. vm_compute in Hf.
    destruct Hf as [<- | [<- | []]]; eexists _, _, _, _, _; reflexivity.
  - exists report. split; [exact E|]. split; [|exact Hf].
    apply Forall2_length in F. rewrite <- F. reflexivity.
Defined.

Lemma report_consistent_witness :
  exists report,
    sample_batch sample_world ["in/a.mp4"; "in/notes.txt"; "in/broken.mp4"] "out"
      = Ok (Some report) /\
    Forall (fun r => result_success r = true) (successful report) /\
    (totals report = None <-> successful report = []).
Proof.
  assert (Hrep : exists report,
    sample_batch sample_world ["in/a.mp4"; "in/notes.txt"; "in/broken.mp4"] "out"
    = Ok (Some report)) by (eexists; reflexivity).
  destruct Hrep as [report H]. exists report.
  destruct (report_consistent sample_cpu_count sample_signal_name
              sample_int_of_str sample_float_of_str _ _ _ report H)
    as (Hs & _ & _ & Ht & _).
  split; [exact H|]. split; [exact Hs | exact Ht].
Defined.

Lemma worker_counts_witness :
  exists report,
    sample_batch sample_world ["in/a.mp4"; "in/notes.txt"; "in/broken.mp4"] "out"
      = Ok (Some report) /\
    max_workers report = 7 /\ ffmpeg_threads sample_cpu_count = 4.
Proof.
  assert (Hrep : exists report,
    sample_batch sample_world ["in/a.mp4"; "in/notes.txt"; "in/broken.mp4"] "out"
    = Ok (Some report)) by (eexists; reflexivity).
  destruct Hrep as [report H]. exists report.
  destruct (worker_counts sample_cpu_count sample_signal_name
              sample_int_of_str sample_float_of_str _ _ _ report H)
    as (_ & _ & Hbig).
  split; [exact H|]. apply Hbig. unfold sample_cpu_count. lia.
Defined.

Lemma other_errors_propagate_witness :
  outcome (sample_process_video ("in/My Clip 01.MOV", "out") env_no_ffmpeg)
  = Raise OSError.
Proof.
  assert (Hreach :
    sample_reaches_encode env_no_ffmpeg "in/My Clip 01.MOV" info_ten_seconds
      52428800 1677721) by (repeat split; reflexivity).
  destruct (other_errors_propagate sample_cpu_count sample_signal_name
              sample_int_of_str sample_float_of_str env_no_ffmpeg
              "in/My Clip 01.MOV" "out" info_ten_seconds 52428800 1677721
              OSError Hreach) as [[_ H] _].
  apply H. split; [reflexivity | intros; discriminate].
Defined.

Lemma empty_input_raises_witness :
  sample_process_video ("in/My Clip 01.MOV", "out") env_empty_input =
  (Raise ZeroDivisionError,
   firstn 3 (full_trace sample_cpu_count "in/My Clip 01.MOV" "out" 1677721)).
Proof.
  apply (empty_input_raises sample_cpu_count sample_signal_name
           sample_int_of_str sample_float_of_str env_empty_input
           "in/My Clip 01.MOV" "out" info_ten_seconds 1677721
           (completed 0 "") (completed 0 "") 2097152 1572864);
    first [reflexivity | repeat split; reflexivity].
Defined.

